(** * File Cross-Check: the ingestor and the cross-check engine of server.js

    A shallow embedding of the pure part of
    [file-cross-checker-express/server.js]: the helper [formatDate], the
    reader [readFileContent] from the point where the workbook or the text of
    the upload is in memory, and the [POST /cross-check] handler from the
    point where both uploads have been read.  File-system effects (upload
    cleanup, CSV files, timers) and the names that are only echoed back
    (file names, CSV file names) are left out; what [saveCsvFile] is given to
    write is kept in the response. *)

From Stdlib Require Import ZArith Ascii.
From stdpp Require Import base decidable option list strings pretty gmap.


(** ** JavaScript values *)

(** The program never does arithmetic on cell values; it only observes a
    number through [String(n)], through its truthiness ([h || ""]) and
    through the equality of [Set] (SameValueZero).  Numbers are therefore an
    interface, instantiated below with the integers. *)
Class JsNumber (number : Type) := {
  number_eq_dec :: EqDecision number;
  (** [String(n)] *)
  Number_toString : number → string;
  (** [ToBoolean(n)]: false exactly for zero and NaN *)
  Number_toBoolean : number → bool;
  (** no number prints as the empty string *)
  Number_toString_nonempty : ∀ n, Number_toString n ≠ "";
}.

(** A [Date] object, as seen through the methods the program calls on it:
    [isNaN(date)], [getFullYear()], [getMonth()], [getDate()] and
    [String(date)]. *)
Record Date := {
  date_isNaN : bool;
  getFullYear : Z;
  getMonth : Z;
  getDate : Z;
  Date_toString : string;
}.

#[global] Instance Date_eq_dec : EqDecision Date.
Proof. solve_decision. Defined.

Section values.
Context {number : Type} `{!JsNumber number}.

(** The scalars a record can hold at a column. *)
Inductive value :=
  | VUndefined
  | VNull
  | VBool (b : bool)
  | VNum (n : number)
  | VStr (s : string).

#[global] Instance value_eq_dec : EqDecision value.
Proof. solve_decision. Defined.

(** A cell of the grid returned by [XLSX.utils.sheet_to_json(ws, {header: 1})]:
    a scalar, or a [Date] (the workbook is read with [cellDates: true]).  A
    hole of a sparse row reads as [undefined]. *)
Inductive cell :=
  | Scalar (v : value)
  | DateCell (d : Date).

(** The members every object inherits from [Object.prototype] (Node). *)
Definition Object_prototype_members : list string :=
  ["constructor"; "__defineGetter__"; "__defineSetter__"; "hasOwnProperty";
   "__lookupGetter__"; "__lookupSetter__"; "isPrototypeOf";
   "propertyIsEnumerable"; "toString"; "valueOf"; "__proto__";
   "toLocaleString"].

(** What [obj[key]] evaluates to on a row object: a scalar the row holds, or
    the member of [Object.prototype] of that name (a function; for
    [__proto__] the object [Object.prototype] itself).  Two such members are
    the same object exactly when they have the same name. *)
Inductive property :=
  | Own (v : value)
  | Inherited (name : string).

#[global] Instance property_eq_dec : EqDecision property.
Proof. solve_decision. Defined.

(** [String(m)] for the member [m] of [Object.prototype] named [name]. *)
Definition inherited_String (name : string) : string :=
  if bool_decide (name = "__proto__") then "[object Object]"
  else if bool_decide (name = "constructor")
       then "function Object() { [native code] }"
       else "function " +:+ name +:+ "() { [native code] }".

(** [String(v)] *)
Definition String_ (v : property) : string :=
  match v with
  | Own VUndefined => "undefined"
  | Own VNull => "null"
  | Own (VBool true) => "true"
  | Own (VBool false) => "false"
  | Own (VNum n) => Number_toString n
  | Own (VStr s) => s
  | Inherited name => inherited_String name
  end.

(** [ToBoolean(v)] *)
Definition truthy (v : value) : bool :=
  match v with
  | VUndefined | VNull => false
  | VBool b => b
  | VNum n => Number_toBoolean n
  | VStr s => negb (bool_decide (s = ""))
  end.

(** [v !== undefined && v !== null && v !== ""] *)
Definition has_content (v : property) : bool :=
  match v with
  | Own VUndefined | Own VNull => false
  | Own (VStr s) => negb (bool_decide (s = ""))
  | Own (VBool _) | Own (VNum _) | Inherited _ => true
  end.

(** A row object: the properties assigned to it, and whether
    [Object.prototype] is still its prototype (it is for [{}]). *)
Record object := {
  own : gmap string value;
  inherits : bool;
}.

#[global] Instance object_eq_dec : EqDecision object.
Proof. solve_decision. Defined.

(** [{}] *)
Definition empty_object : object := {| own := ∅; inherits := true |}.

(** [obj[key]]: an own property, else the inherited member of that name,
    else [undefined]. *)
Definition get (obj : object) (key : string) : property :=
  match own obj !! key with
  | Some v => Own v
  | None =>
      if inherits obj && bool_decide (key ∈ Object_prototype_members)
      then Inherited key
      else Own VUndefined
  end.

(** [obj[key] = v] for a scalar [v].  Under the name [__proto__] an object
    that still inherits from [Object.prototype] runs the inherited setter:
    [null] removes the prototype, any other scalar is ignored, and no
    property is stored.  Otherwise the property is stored. *)
Definition assign (obj : object) (key : string) (v : value) : object :=
  if bool_decide (key = "__proto__") && inherits obj then
    match v with
    | VNull => {| own := own obj; inherits := false |}
    | _ => obj
    end
  else {| own := <[key := v]> (own obj); inherits := inherits obj |}.

End values.

Arguments value number : clear implicits.
Arguments cell number : clear implicits.
Arguments property number : clear implicits.
Arguments object number : clear implicits.
Arguments Own {number} v.
Arguments Inherited {number} name.

Coercion Own : value >-> property.

(** ** Strings *)

(** Strings are Rocq strings, one character per code unit, for code units
    below 256.  In that range the white space and line terminators that
    [String.prototype.trim] removes are TAB, LF, VT, FF, CR, SP and NBSP. *)
Definition is_white_space (c : ascii) : bool :=
  let n := Ascii.N_of_ascii c in
  ((9 <=? n) && (n <=? 13) || (n =? 32) || (n =? 160))%N.

Fixpoint trimStart (s : string) : string :=
  match s with
  | String c s' => if is_white_space c then trimStart s' else s
  | EmptyString => EmptyString
  end.

Fixpoint trimEnd (s : string) : string :=
  match s with
  | String c s' =>
      match trimEnd s' with
      | EmptyString => if is_white_space c then EmptyString else String c EmptyString
      | r => String c r
      end
  | EmptyString => EmptyString
  end.

(** [s.trim()] *)
Definition trim (s : string) : string := trimEnd (trimStart s).

(** [String(z).padStart(2, "0")] for an integer [z] *)
Definition padStart2 (s : string) : string :=
  match s with
  | EmptyString => "00"
  | String c EmptyString => String "0" s
  | _ => s
  end.

(** [content.split(/\r?\n/)] *)
Fixpoint split_lines (s : string) : list string :=
  match s with
  | EmptyString => [EmptyString]
  | String c s' =>
      if bool_decide (c = "010"%char) then EmptyString :: split_lines s'
      else
        match s' with
        | String c' s'' =>
            if bool_decide (c = "013"%char) && bool_decide (c' = "010"%char)
            then EmptyString :: split_lines s''
            else
              match split_lines s' with
              | l :: ls => String c l :: ls
              | [] => [String c EmptyString]
              end
        | EmptyString => [String c EmptyString]
        end
  end.

(** ** Helpers of server.js *)

(** [formatDate(date)], called on [Date] objects only. *)
Definition formatDate (date : Date) : string :=
  if date_isNaN date then ""
  else
    let year := getFullYear date in
    let month := padStart2 (pretty (getMonth date + 1)%Z) in
    let day := padStart2 (pretty (getDate date)) in
    pretty year +:+ "-" +:+ month +:+ "-" +:+ day.

(** The [type] field of what [readFileContent] returns. *)
Inductive fileType := structured | plain_text.

#[global] Instance fileType_eq_dec : EqDecision fileType.
Proof. solve_decision. Defined.

(** [new Set()]: insertion-ordered and duplicate-free. *)
Section JsSet.
Context {A : Type} `{!EqDecision A}.

Definition Set_has (s : list A) (x : A) : bool := bool_decide (x ∈ s).

Definition Set_add (s : list A) (x : A) : list A :=
  if Set_has s x then s else s ++ [x].

End JsSet.

Section ingest.
Context {number : Type} `{!JsNumber number}.

(** An element of [data]: an object keyed by header for a structured file, a
    line for a plain text file ("Array<Object> for structured, Array<string>
    for plain text"). *)
Definition item (t : fileType) : Type :=
  match t with
  | structured => object number
  | plain_text => string
  end.

(** What [readFileContent] returns. *)
Record fileContent := {
  type : fileType;
  data : list (item type);
  headers : list string;
  firstColumnHeader : option string;
}.

(** The two shapes of a [fileContent], by [type]. *)
Definition structuredContent (rows : list (object number))
    (headers : list string) (firstColumnHeader : option string) : fileContent :=
  {| type := structured; data := rows; headers := headers;
     firstColumnHeader := firstColumnHeader |}.

Definition plainTextContent (lines : list string)
    (headers : list string) (firstColumnHeader : option string) : fileContent :=
  {| type := plain_text; data := lines; headers := headers;
     firstColumnHeader := firstColumnHeader |}.

(** [row[index]] on a row of the grid. *)
Definition at_index (row : list (cell number)) (index : nat) : cell number :=
  default (Scalar VUndefined) (row !! index).

(** [String(h || "").trim()] *)
Definition clean_header (h : cell number) : string :=
  trim match h with
       | Scalar v => if truthy v then String_ (Own v) else String_ (Own (VStr ""))
       | DateCell d => Date_toString d
       end.

(** The body of [headers.forEach((header, index) => ...)], from [index] on. *)
Fixpoint forEach_header (headers : list string) (index : nat)
    (row : list (cell number)) (obj : object number) : object number :=
  match headers with
  | [] => obj
  | header :: rest =>
      let value :=
        match at_index row index with
        | DateCell d => VStr (formatDate d)
        | Scalar v => v
        end in
      forEach_header rest (S index) row (assign obj header value)
  end.

(** The upload as [readFileContent] sees it: for the extensions [.xlsx],
    [.xls] and [.csv] the grid
    [rawData = sheet_to_json(worksheet, {header: 1, raw: false})] of the
    first sheet, in which the cells come as formatted text; otherwise the
    text of the file. *)
Inductive upload :=
  | Workbook (rawData : list (list (cell number)))
  | TextFile (content : string).

Definition readFileContent (file : upload) : fileContent :=
  match file with
  | Workbook rawData =>
      match rawData with
      | [] =>
          {| type := structured; data := []; headers := [];
             firstColumnHeader := None |}
      | row0 :: rest =>
          let headers := filter (λ h, h ≠ "") (clean_header <$> row0) in
          let rows := (λ row, forEach_header headers 0 row empty_object) <$> rest in
          {| type := structured; data := rows; headers := headers;
             firstColumnHeader := head headers |}
      end
  | TextFile content =>
      let lines := filter (λ line, trim line ≠ "") (split_lines content) in
      {| type := plain_text; data := lines; headers := [];
         firstColumnHeader := Some "Line Content" |}
  end.

End ingest.

Arguments item number t : clear implicits.
Arguments fileContent number : clear implicits.
Arguments upload number : clear implicits.
Arguments structuredContent {number} rows headers firstColumnHeader.
Arguments plainTextContent {number} lines headers firstColumnHeader.

(** ** The [POST /cross-check] handler *)

Section cross_check.
Context {number : Type} `{!JsNumber number}.

(** The JSON body of a 200 response.  [matchedCsv] and [missingCsv] hold what
    [saveCsvFile] wrote under [matchedCsvFilename] and [missingCsvFilename];
    they are [None] where the response carries no such file name. *)
Record response (t : fileType) := {
  message : string;
  foundCount : nat;
  missingCount : nat;
  missingContents : list (item number t);
  totalFile1Rows : nat;
  matchedCsv : option (list (item number t));
  missingCsv : option (list (item number t));
  comparisonColumn : string;
}.

(** The handler answers 400 with a message, or 200 with a body. *)
Inductive reply (t : fileType) :=
  | Status400 (message : string)
  | Status200 (body : response t).

(** [`${selectedColumn}`] for the form field, [None] when it was not sent. *)
Definition template (selectedColumn : option string) : string :=
  match selectedColumn with
  | Some s => s
  | None => "undefined"
  end.

(** "Determine the actual column to use for comparison": [None] is the 400
    answer of the [headers.includes] guard. *)
Definition actualComparisonColumn (fileAContent fileBContent : fileContent number)
    (selectedColumn : option string) : option string :=
  match type fileAContent, type fileBContent with
  | structured, structured =>
      match selectedColumn with
      | Some column =>
          if bool_decide (column ∈ headers fileAContent) then Some column else None
      | None => None
      end
  | _, _ => Some "Line Content"
  end.

(** The lookup set built from File B. *)
Definition values2Set (file2Type : fileType) (column : string)
    : list (item number file2Type) → list string :=
  match file2Type with
  | structured => λ data2,
      fold_left (λ set row,
        let value := get row column in
        if has_content value then Set_add set (String_ value) else set) data2 []
  | plain_text => λ data2,
      fold_left (λ set line,
        if has_content (Own (VStr line) : property number)
        then Set_add set (String_ (Own (VStr line) : property number)) else set)
        data2 []
  end.

(** [value1] of the comparison loop. *)
Definition value1 (file1Type : fileType) (column : string)
    : item number file1Type → property number :=
  match file1Type with
  | structured => λ item1, get item1 column
  | plain_text => λ item1, Own (VStr item1)
  end.

(** One turn of [for (const item1 of data1)] on the pair
    [(foundInFile2, missingInFile2)]. *)
Definition compare_item (file1Type : fileType) (column : string) (values2Set : list string)
    (acc : list (item number file1Type) * list (item number file1Type))
    (item1 : item number file1Type)
    : list (item number file1Type) * list (item number file1Type) :=
  let v := value1 file1Type column item1 in
  if has_content v then
    if Set_has values2Set (String_ v) then (acc.1 ++ [item1], acc.2)
    else (acc.1, acc.2 ++ [item1])
  else (acc.1, acc.2 ++ [item1]).

Definition compare_loop (file1Type : fileType) (column : string) (values2Set : list string)
    (data1 : list (item number file1Type))
    : list (item number file1Type) * list (item number file1Type) :=
  fold_left (compare_item file1Type column values2Set) data1 ([], []).

(** The test that sends [item1] to [foundInFile2]: both [if]s of the loop
    body taken. *)
Definition in_file2 (file1Type : fileType) (column : string) (values2Set : list string)
    (item1 : item number file1Type) : bool :=
  let v := value1 file1Type column item1 in
  has_content v && Set_has values2Set (String_ v).

(** [saveCsvFile] is called only for a non-empty partition. *)
Definition saved {A : Type} (l : list A) : option (list A) :=
  if bool_decide (0 < length l) then Some l else None.

Definition cross_check (fileAContent fileBContent : fileContent number)
    (selectedColumn : option string) : reply (type fileAContent) :=
  let data1 := data fileAContent in
  let data2 := data fileBContent in
  let file1Type := type fileAContent in
  let file2Type := type fileBContent in
  match actualComparisonColumn fileAContent fileBContent selectedColumn with
  | None =>
      Status400 _ ("Selected column '" +:+ template selectedColumn +:+
        "' not found in File A headers. Please select a valid column.")
  | Some column =>
      if bool_decide (length data1 = 0) then
        Status200 _ {|
          message := "File A is empty. Nothing to cross-check.";
          foundCount := 0; missingCount := 0; missingContents := [];
          totalFile1Rows := 0;
          matchedCsv := None; missingCsv := None;
          comparisonColumn := column |}
      else if bool_decide (length data2 = 0) then
        Status200 _ {|
          message := "File B is empty. No contents to compare against.";
          foundCount := 0; missingCount := 0; missingContents := [];
          totalFile1Rows := length data1;
          matchedCsv := None; missingCsv := None;
          comparisonColumn := column |}
      else
        let set := values2Set file2Type column data2 in
        let '(foundInFile2, missingInFile2) := compare_loop file1Type column set data1 in
        Status200 _ {|
          message := "Cross-check completed successfully! CSV files generated.";
          foundCount := length foundInFile2;
          missingCount := length missingInFile2;
          totalFile1Rows := length data1;
          missingContents := take 10 missingInFile2;
          matchedCsv := saved foundInFile2;
          missingCsv := saved missingInFile2;
          comparisonColumn := column |}
  end.

(** The 400 answer of the column guard, the only 400 of the handler once
    both files are read. *)
Definition UnknownComparisonKey {t : fileType} (answer : reply t) : Prop :=
  match answer with
  | Status400 _ _ => True
  | Status200 _ _ => False
  end.

(** The two partitions a 200 response delivers. *)
Definition matched {t : fileType} (r : response t) : list (item number t) :=
  default [] (matchedCsv t r).

Definition missing {t : fileType} (r : response t) : list (item number t) :=
  default [] (missingCsv t r).

End cross_check.

Arguments response number t : clear implicits.
Arguments reply number t : clear implicits.
Arguments Status400 {number t} message.
Arguments Status200 {number t} body.
Arguments UnknownComparisonKey {number t} answer.
Arguments message {number t} r.
Arguments foundCount {number t} r.
Arguments missingCount {number t} r.
Arguments missingContents {number t} r.
Arguments totalFile1Rows {number t} r.
Arguments matchedCsv {number t} r.
Arguments missingCsv {number t} r.
Arguments comparisonColumn {number t} r.

(** ** The earlier server (second half of server.js): its lookup set and
    comparison loop, which store and test the values themselves. *)
Module Historical.
Section partition.
Context {number : Type} `{!JsNumber number}.

Definition values2Set (file2Type : fileType) (comparisonColumn : string)
    : list (item number file2Type) → list (property number) :=
  match file2Type with
  | structured => λ data2,
      fold_left (λ set row,
        let value := get row comparisonColumn in
        if has_content value then Set_add set value else set) data2 []
  | plain_text => λ data2,
      fold_left (λ set line,
        if has_content (Own (VStr line) : property number)
        then Set_add set (Own (VStr line)) else set) data2 []
  end.

Definition value1 (file1Type : fileType) (comparisonColumn : string)
    : item number file1Type → property number :=
  match file1Type with
  | structured => λ item1, get item1 comparisonColumn
  | plain_text => λ item1, Own (VStr item1)
  end.

Definition compare_item (file1Type : fileType) (comparisonColumn : string)
    (values2Set : list (property number))
    (acc : list (item number file1Type) * list (item number file1Type))
    (item1 : item number file1Type)
    : list (item number file1Type) * list (item number file1Type) :=
  let v := value1 file1Type comparisonColumn item1 in
  if has_content v then
    if Set_has values2Set v then (acc.1 ++ [item1], acc.2)
    else (acc.1, acc.2 ++ [item1])
  else (acc.1, acc.2 ++ [item1]).

Definition compare_loop (file1Type : fileType) (comparisonColumn : string)
    (values2Set : list (property number))
    (data1 : list (item number file1Type))
    : list (item number file1Type) * list (item number file1Type) :=
  fold_left (compare_item file1Type comparisonColumn values2Set) data1 ([], []).

Definition in_file2 (file1Type : fileType) (comparisonColumn : string)
    (values2Set : list (property number)) (item1 : item number file1Type) : bool :=
  let v := value1 file1Type comparisonColumn item1 in
  has_content v && Set_has values2Set v.

End partition.
End Historical.

(** ** The integers as JavaScript numbers *)

(** Integer-valued numbers: [String] prints the decimal numeral (as
    JavaScript does below 10^21) and only zero is falsy. *)
#[global] Instance Z_JsNumber : JsNumber Z.
Proof.
  refine {| Number_toString := pretty;
            Number_toBoolean z := negb (bool_decide (z = 0%Z)) |}.
  assert (∀ x s, String.length s ≤ String.length (pretty_N_go x s)) as Hlen.
  { intros x. induction (N.lt_wf_0 x) as [x _ IH]; intros s.
    destruct (decide (x = 0)%N) as [->|Hx]; [by rewrite pretty_N_go_0|].
    rewrite pretty_N_go_step by lia.
    etrans; [|apply IH, N.div_lt; lia]. simpl. lia. }
  assert (∀ x : N, pretty x ≠ "") as HN.
  { intros x. unfold pretty, pretty_N. case_decide as Hx; [done|].
    rewrite pretty_N_go_step by lia. intros Heq.
    specialize (Hlen (x `div` 10)%N (String (pretty_N_char (x `mod` 10)) "")).
    rewrite Heq in Hlen. simpl in Hlen. lia. }
  intros [|p|p]; unfold pretty, pretty_Z; [done|apply HN|done].
Defined.

(** ** Sample uploads, over the integers *)

Module Sample.

Definition str (s : string) : cell Z := Scalar (VStr s).
Definition num (z : Z) : cell Z := Scalar (VNum z).

(** An object literal: the given properties on [{}]. *)
Definition obj (properties : gmap string (value Z)) : object Z :=
  {| own := properties; inherits := true |}.

(** [id,name / 1,x / 2,y] and [id,name / 2,z], all cells text. *)
Definition sheetA : upload Z :=
  Workbook [[str "id"; str "name"]; [str "1"; str "x"]; [str "2"; str "y"]].
Definition sheetB : upload Z :=
  Workbook [[str "id"; str "name"]; [str "2"; str "z"]].

(** A header row and no data row; no row at all. *)
Definition sheetHeaderOnly : upload Z := Workbook [[str "id"; str "name"]].
Definition sheetEmpty : upload Z := Workbook [].

(** The number 5 under [id], and the text "5" under [id]. *)
Definition sheetNum5 : upload Z := Workbook [[str "id"]; [num 5]].
Definition sheetStr5 : upload Z := Workbook [[str "id"]; [str "5"]].

(** A row whose [id] cell is empty, next to a filled one. *)
Definition sheetBlankId : upload Z :=
  Workbook [[str "id"; str "name"]; [str ""; str "x"]; [str "2"; str "y"]].

(** File B without the column [id]. *)
Definition sheetNoId : upload Z := Workbook [[str "name"]; [str "2"]; [str "x"]].

(** Two header cells with the same name, and one blank. *)
Definition sheetTwiceId : upload Z :=
  Workbook [[str "id"; str "  "; str " id "]; [str "1"; str "2"; str "3"]].

(** A column named [constructor], holding the text that [String] gives for
    the function [Object]. *)
Definition sheetConstructor : upload Z :=
  Workbook [[str "constructor"]; [str "function Object() { [native code] }"]].

(** The raw grid of a sheet with a header cell of white space only. *)
Definition gridBlankHeader : list (list (cell Z)) :=
  [[str "id"; str "  "]; [str "1"; str "2"]].

(** One data row [foo] under [id]; text files of two and of one line. *)
Definition sheetFoo : upload Z := Workbook [[str "id"]; [str "foo"]].
Definition textFooBar : upload Z := TextFile ("foo" +:+ String "010" "bar").
Definition textFoo : upload Z := TextFile "foo".
Definition textBar : upload Z := TextFile ("bar" +:+ String "013" (String "010" "")).

End Sample.

(** ** The rest of the present server *)

(** [s.startsWith(p)] *)
Fixpoint starts_with (p s : string) : bool :=
  match p, s with
  | EmptyString, _ => true
  | String a p', String b s' => bool_decide (a = b) && starts_with p' s'
  | String _ _, EmptyString => false
  end.

(** [/p1|p2|.../.test(s)] for literal alternatives: the search succeeds at
    the first position where one of them starts. *)
Fixpoint test_alternatives (alternatives : list string) (s : string) : bool :=
  existsb (λ p, starts_with p s) alternatives
  || match s with
     | String _ s' => test_alternatives alternatives s'
     | EmptyString => false
     end.

(** [fileFilter], the filter multer applies to an upload, on
    [ext = path.extname(file.originalname).toLowerCase()]: [true] where the
    callback accepts the file. *)
Definition fileFilter (ext : string) : bool :=
  let allowedTypes := ["xlsx"; "xls"; "txt"; "csv"] in
  test_alternatives allowedTypes ext.

(** [isStructured] of [readFileContent], on
    [ext = path.extname(originalFilename).toLowerCase()]: the upload is read
    as a [Workbook] where it holds and as a [TextFile] otherwise. *)
Definition isStructured (ext : string) : bool :=
  bool_decide (ext = ".xlsx") || bool_decide (ext = ".xls")
  || bool_decide (ext = ".csv").

(** [Array.from(new Set(array))] *)
Definition Array_from_Set {A : Type} `{!EqDecision A} (array : list A) : list A :=
  fold_left Set_add array [].

Section get_headers.
Context {number : Type} `{!JsNumber number}.

(** What [forEach_header] stores for a cell. *)
Definition stored (c : cell number) : value number :=
  match c with
  | DateCell d => VStr (formatDate d)
  | Scalar v => v
  end.

(** [uniqueHeaders] of the [POST /get-headers] handler once both files are
    read; the handler answers
    [{success: true, headers: uniqueHeaders, fileAType: fileAContent.type}]. *)
Definition uniqueHeaders (fileAContent fileBContent : fileContent number) : list string :=
  let areBothStructured :=
    bool_decide (type fileAContent = structured)
    && bool_decide (type fileBContent = structured) in
  let uniqueHeaders :=
    if areBothStructured then
      filter (λ h, h ≠ "" ∧ trim h ≠ "")
        (Array_from_Set (headers fileAContent ++ headers fileBContent))
    else ["Line Content"] in
  if bool_decide (length uniqueHeaders = 0) && areBothStructured
  then ["No Headers Found"]
  else uniqueHeaders.

End get_headers.

(** ** The earlier server, whole: its reader and its handler *)

Module HistoricalServer.
Section server.
Context {number : Type} `{!JsNumber number}.

(** What the earlier [readFileContent] returns; [comparisonKey] is a raw
    header cell, [null], or the text "line_content". *)
Record fileContent := {
  type : fileType;
  data : list (item number type);
  comparisonKey : cell number;
}.

(** The upload as the earlier [readFileContent] sees it: for a structured
    extension the grid [json = sheet_to_json(worksheet, {header: 1})] of the
    first sheet, in which the cells come raw (numbers, booleans, text and
    [Date]s); otherwise the text of the file.  This is not the grid the
    present reader gets for the same sheet, which holds formatted text; the
    two agree on cells that are text. *)
Inductive upload :=
  | Workbook (json : list (list (cell number)))
  | TextFile (content : string).

(** The property name a header cell is used as in [obj[header]]. *)
Definition property_key (header : cell number) : string :=
  match header with
  | Scalar v => String_ (Own v)
  | DateCell d => Date_toString d
  end.

(** [!comparisonColumn] *)
Definition falsy (c : cell number) : bool :=
  match c with
  | Scalar v => negb (truthy v)
  | DateCell _ => false
  end.

(** The body of [headers.forEach((header, index) => ...)], from [index] on;
    the header row is the raw first row of the grid, and [forEach] skips its
    holes. *)
Fixpoint forEach_header (headers : list (cell number)) (index : nat)
    (row : list (cell number)) (obj : object number) : object number :=
  match headers with
  | [] => obj
  | header :: rest =>
      match header with
      | Scalar VUndefined => forEach_header rest (S index) row obj
      | _ =>
          let value :=
            match at_index row index with
            | DateCell d => VStr (formatDate d)
            | Scalar v => v
            end in
          forEach_header rest (S index) row (assign obj (property_key header) value)
      end
  end.

Definition readFileContent (file : upload) : fileContent :=
  match file with
  | Workbook json =>
      match json with
      | [] => {| type := structured; data := []; comparisonKey := Scalar VNull |}
      | headers :: rest =>
          let rows := (λ row, forEach_header headers 0 row empty_object) <$> rest in
          let comparisonKey := default (Scalar VNull) (head headers) in
          {| type := structured; data := rows; comparisonKey := comparisonKey |}
      end
  | TextFile content =>
      let lines := filter (λ line, trim line ≠ "") (split_lines content) in
      {| type := plain_text; data := lines;
         comparisonKey := Scalar (VStr "line_content") |}
  end.

(** The JSON body of a 200 response; the two short answers carry neither
    [totalFile1Rows] nor [comparisonColumn]. *)
Record response (t : fileType) := {
  message : string;
  foundCount : nat;
  missingCount : nat;
  missingContents : list (item number t);
  totalFile1Rows : option nat;
  matchedCsv : option (list (item number t));
  missingCsv : option (list (item number t));
  comparisonColumn : option (cell number);
}.

Inductive reply (t : fileType) :=
  | Status400 (message : string)
  | Status200 (body : response t).

Definition cross_check (fileAContent fileBContent : fileContent)
    : reply (type fileAContent) :=
  let data1 := data fileAContent in
  let data2 := data fileBContent in
  let file1Type := type fileAContent in
  let file2Type := type fileBContent in
  let comparisonColumn := comparisonKey fileAContent in
  if bool_decide (length data1 = 0) then
    Status200 _ {|
      message := "File A is empty. Nothing to cross-check.";
      foundCount := 0; missingCount := 0; missingContents := [];
      totalFile1Rows := None; matchedCsv := None; missingCsv := None;
      comparisonColumn := None |}
  else if bool_decide (length data2 = 0) then
    Status200 _ {|
      message := "File B is empty. No contents to compare against.";
      foundCount := 0; missingCount := 0; missingContents := [];
      totalFile1Rows := None; matchedCsv := None; missingCsv := None;
      comparisonColumn := None |}
  else if falsy comparisonColumn then
    Status400 _ "Could not determine a comparison key for File A. Ensure it has content or a first column."
  else
    let key := property_key comparisonColumn in
    let set := Historical.values2Set file2Type key data2 in
    let '(foundInFile2, missingInFile2) :=
      Historical.compare_loop file1Type key set data1 in
    Status200 _ {|
      message := "Cross-check completed successfully! CSV files generated.";
      foundCount := length foundInFile2;
      missingCount := length missingInFile2;
      totalFile1Rows := Some (length data1);
      missingContents := take 10 missingInFile2;
      matchedCsv := saved foundInFile2;
      missingCsv := saved missingInFile2;
      comparisonColumn := Some comparisonColumn |}.

Definition matched {t : fileType} (r : response t) : list (item number t) :=
  default [] (matchedCsv t r).

Definition missing {t : fileType} (r : response t) : list (item number t) :=
  default [] (missingCsv t r).

End server.

Arguments upload number : clear implicits.
Arguments fileContent number : clear implicits.
Arguments response number t : clear implicits.
Arguments reply number t : clear implicits.
Arguments Status400 {number t} message.
Arguments Status200 {number t} body.
Arguments message {number t} r.
Arguments foundCount {number t} r.
Arguments missingCount {number t} r.
Arguments missingContents {number t} r.
Arguments totalFile1Rows {number t} r.
Arguments matchedCsv {number t} r.
Arguments missingCsv {number t} r.
Arguments comparisonColumn {number t} r.

End HistoricalServer.

(** The cells on which [sheet_to_json] gives the same grid with and without
    [raw: false]: text, and the holes of empty cells. *)
Definition text_cell {number : Type} (c : cell number) : Prop :=
  c = Scalar VUndefined ∨ ∃ s, c = Scalar (VStr s).

(** ** The page (public/app.js): what it shows for a 200 answer *)

Section page.
Context {number : Type} `{!JsNumber number}.

(** What the submit handler leaves in [missingContentsDisplay]: the items of
    [result.missingContents], each rendered as a [missing-item] block, or the
    paragraph "All items from File A were found in File B.". *)
Inductive display (t : fileType) :=
  | MissingItems (items : list (item number t))
  | AllFound.

(** The branch of the submit handler under [if (result.success)] that fills
    [missingContentsDisplay]; [result.missingCsvFilename] is set exactly
    where [missingCsv] holds a file. *)
Definition missingContentsDisplay {t : fileType} (result : response number t)
    : display t :=
  match missingCsv result with
  | Some _ =>
      if bool_decide (0 < length (missingContents result))
      then MissingItems t (missingContents result)
      else AllFound t
  | None => AllFound t
  end.

(** Whether the two download sections are shown. *)
Definition downloadMatchedShown {t : fileType} (result : response number t) : bool :=
  bool_decide (is_Some (matchedCsv result)).

Definition downloadMissingShown {t : fileType} (result : response number t) : bool :=
  bool_decide (is_Some (missingCsv result)).

End page.

Arguments display number t : clear implicits.
Arguments MissingItems {number t} items.
Arguments AllFound {number t}.

(** * Properties *)

(** ** The comparison loop as a pair of filters *)

Section loop_facts.
Context {number : Type} `{!JsNumber number}.
Implicit Types (t : fileType) (column : string) (set : list string).


Lemma inherited_String_nonempty (name : string) : inherited_String name ≠ "".
Proof. unfold inherited_String. by repeat case_bool_decide. Qed.

Lemma String_has_content (v : property number) :
  has_content v = true → String_ v ≠ "".
Proof.
  destruct v as [[| |[]|n|s]|name]; simpl; try done.
  - intros _. apply Number_toString_nonempty.
  - rewrite negb_true_iff, bool_decide_eq_false. done.
  - intros _. apply inherited_String_nonempty.
Qed.

Lemma compare_item_in_file2 t column set acc (item1 : item number t) :
  compare_item t column set acc item1 =
    if in_file2 t column set item1
    then (acc.1 ++ [item1], acc.2) else (acc.1, acc.2 ++ [item1]).
Proof.
  unfold compare_item, in_file2; simpl.
  destruct (has_content _); [destruct (Set_has _ _)|]; done.
Qed.

Lemma compare_loop_from t column set (data1 : list (item number t)) acc :
  fold_left (compare_item t column set) data1 acc =
    (acc.1 ++ filter (λ i, in_file2 t column set i = true) data1,
     acc.2 ++ filter (λ i, in_file2 t column set i ≠ true) data1).
Proof.
  revert acc. induction data1 as [|item1 data1 IH]; intros [found miss]; simpl.
  - by rewrite !filter_nil, !app_nil_r.
  - rewrite IH, compare_item_in_file2.
    destruct (in_file2 t column set item1) eqn:Hin; simpl.
    + rewrite filter_cons_True, filter_cons_False by (by rewrite Hin; auto).
      by rewrite <-app_assoc.
    + rewrite filter_cons_False, filter_cons_True by (by rewrite Hin; auto).
      by rewrite <-app_assoc.
Qed.

Lemma compare_loop_filter t column set (data1 : list (item number t)) :
  compare_loop t column set data1 =
    (filter (λ i, in_file2 t column set i = true) data1,
     filter (λ i, in_file2 t column set i ≠ true) data1).
Proof. unfold compare_loop. by rewrite compare_loop_from. Qed.

Lemma default_saved {A : Type} (l : list A) : default [] (saved l) = l.
Proof.
  unfold saved. case_bool_decide as Hlen; [done|].
  destruct l; [done|]. simpl in Hlen. lia.
Qed.

Lemma elem_of_Set_add {A : Type} `{!EqDecision A} (s : list A) (x y : A) :
  x ∈ Set_add s y ↔ x ∈ s ∨ x = y.
Proof.
  unfold Set_add, Set_has. case_bool_decide as Hin.
  - split; [by left|]. by intros [?| ->].
  - by rewrite elem_of_app, list_elem_of_singleton.
Qed.

Lemma Set_has_true {A : Type} `{!EqDecision A} (s : list A) (x : A) :
  Set_has s x = true ↔ x ∈ s.
Proof. unfold Set_has. apply bool_decide_eq_true. Qed.

(** A [forEach] that adds [g x] for every [x] passing the content test. *)
Lemma elem_of_forEach_add {A B : Type} `{!EqDecision B}
    (f : A → property number) (g : A → B) (data2 : list A) (acc : list B) (s : B) :
  s ∈ fold_left (λ vs x, if has_content (f x) then Set_add vs (g x) else vs)
        data2 acc
  ↔ s ∈ acc ∨ ∃ x, x ∈ data2 ∧ has_content (f x) = true ∧ g x = s.
Proof.
  revert acc. induction data2 as [|x data2 IH]; intros acc; simpl.
  - split; [by left|]. intros [?|(x & Hx & _)]; [done|].
    by apply elem_of_nil in Hx.
  - rewrite IH. split.
    + intros [Hacc|(y & Hy & Hc & Hs)].
      * destruct (has_content (f x)) eqn:Hc; [|by left].
        apply elem_of_Set_add in Hacc as [?| ->]; [by left|].
        right. exists x. split; [apply elem_of_cons; by left|done].
      * right. exists y. split; [apply elem_of_cons; by right|done].
    + intros [Hacc|(y & Hy & Hc & Hs)].
      * left. destruct (has_content (f x)); [|done].
        apply elem_of_Set_add. by left.
      * apply elem_of_cons in Hy as [->|Hy].
        -- left. rewrite Hc. apply elem_of_Set_add. by right.
        -- right. by exists y.
Qed.

(** The lookup set holds exactly the string forms of File B's key values
    that pass the content test. *)
Lemma elem_of_values2Set t column (data2 : list (item number t)) (s : string) :
  s ∈ values2Set t column data2 ↔
  ∃ item2, item2 ∈ data2 ∧ has_content (value1 t column item2) = true
           ∧ String_ (value1 t column item2) = s.
Proof.
  destruct t; simpl.
  - rewrite (elem_of_forEach_add (λ row, get row column)
               (λ row, String_ (get row column))).
    split; [intros [Hnil|?]; [by apply elem_of_nil in Hnil|done]|by right].
  - rewrite (elem_of_forEach_add (λ line, VStr line)
               (λ line, String_ (Own (VStr line) : property number))).
    split; [intros [Hnil|?]; [by apply elem_of_nil in Hnil|done]|by right].
Qed.

End loop_facts.

(** ** The three 200 answers of the handler *)

Section handler_facts.
Context {number : Type} `{!JsNumber number}.
Implicit Types (A B : fileContent number) (selectedColumn : option string).

Lemma length_zero_nil {X : Type} (l : list X) : length l = 0 ↔ l = [].
Proof. destruct l; simpl; split; (done || lia). Qed.

Lemma cross_check_unknown_key A B selectedColumn :
  actualComparisonColumn A B selectedColumn = None →
  cross_check A B selectedColumn =
    Status400 ("Selected column '" +:+ template selectedColumn +:+
               "' not found in File A headers. Please select a valid column.").
Proof. intros Hkey. unfold cross_check. by rewrite Hkey. Qed.

Lemma cross_check_empty_A A B selectedColumn column :
  actualComparisonColumn A B selectedColumn = Some column →
  data A = [] →
  cross_check A B selectedColumn = Status200 {|
    message := "File A is empty. Nothing to cross-check.";
    foundCount := 0; missingCount := 0; missingContents := [];
    totalFile1Rows := 0; matchedCsv := None; missingCsv := None;
    comparisonColumn := column |}.
Proof.
  intros Hkey HA. unfold cross_check. rewrite Hkey; simpl.
  rewrite bool_decide_eq_true_2; [done|]. by apply length_zero_nil.
Qed.

Lemma cross_check_empty_B A B selectedColumn column :
  actualComparisonColumn A B selectedColumn = Some column →
  data A ≠ [] → data B = [] →
  cross_check A B selectedColumn = Status200 {|
    message := "File B is empty. No contents to compare against.";
    foundCount := 0; missingCount := 0; missingContents := [];
    totalFile1Rows := length (data A); matchedCsv := None; missingCsv := None;
    comparisonColumn := column |}.
Proof.
  intros Hkey HA HB. unfold cross_check. rewrite Hkey; simpl.
  rewrite bool_decide_eq_false_2 by (by rewrite length_zero_nil).
  rewrite bool_decide_eq_true_2; [done|]. by apply length_zero_nil.
Qed.

Lemma cross_check_compared A B selectedColumn column :
  actualComparisonColumn A B selectedColumn = Some column →
  data A ≠ [] → data B ≠ [] →
  let set := values2Set (type B) column (data B) in
  let found := filter (λ i, in_file2 (type A) column set i = true) (data A) in
  let miss := filter (λ i, in_file2 (type A) column set i ≠ true) (data A) in
  cross_check A B selectedColumn = Status200 {|
    message := "Cross-check completed successfully! CSV files generated.";
    foundCount := length found; missingCount := length miss;
    missingContents := take 10 miss;
    totalFile1Rows := length (data A);
    matchedCsv := saved found; missingCsv := saved miss;
    comparisonColumn := column |}.
Proof.
  intros Hkey HA HB. unfold cross_check. rewrite Hkey; simpl.
  rewrite !bool_decide_eq_false_2 by (by rewrite length_zero_nil).
  by rewrite compare_loop_filter.
Qed.

(** Every 200 answer delivers the two filters of File A's rows by one
    test [keep], and its counts are their lengths or both zero. *)
Lemma cross_check_200 A B selectedColumn (r : response number (type A)) :
  cross_check A B selectedColumn = Status200 r →
  ∃ keep : item number (type A) → bool,
    matched r = filter (λ i, keep i = true) (data A) ∧
    missing r = filter (λ i, keep i ≠ true) (data A)
    ∨ matched r = [] ∧ missing r = [].
Proof.
  intros Hr.
  destruct (actualComparisonColumn A B selectedColumn) as [column|] eqn:Hkey.
  2:{ by rewrite cross_check_unknown_key in Hr. }
  destruct (decide (data A = [])) as [HA|HA].
  { rewrite (cross_check_empty_A _ _ _ column) in Hr by done.
    injection Hr as <-. exists (λ _, true). by right. }
  destruct (decide (data B = [])) as [HB|HB].
  { rewrite (cross_check_empty_B _ _ _ column) in Hr by done.
    injection Hr as <-. exists (λ _, true). by right. }
  rewrite (cross_check_compared _ _ _ column) in Hr by done.
  injection Hr as <-.
  exists (in_file2 (type A) column (values2Set (type B) column (data B))).
  left. unfold matched, missing; simpl. by rewrite !default_saved.
Qed.

End handler_facts.

(** ** The partition *)

Section partition_claims.
Context {number : Type} `{!JsNumber number}.
Implicit Types (A B : fileContent number) (selectedColumn : option string).

(** C1.  When File A and File B both have rows and the comparison column is
    resolved, the handler answers 200 and the partition is total and
    exclusive: [matched ++ missing] is a rearrangement of File A's rows, no
    row is in both, and [foundCount + missingCount = totalFile1Rows], the
    number of File A's rows. *)
Theorem partition_total_exclusive A B selectedColumn :
  data A ≠ [] → data B ≠ [] →
  is_Some (actualComparisonColumn A B selectedColumn) →
  ∃ r : response number (type A),
    cross_check A B selectedColumn = Status200 r
    ∧ foundCount r + missingCount r = totalFile1Rows r
    ∧ totalFile1Rows r = length (data A)
    ∧ foundCount r = length (matched r)
    ∧ missingCount r = length (missing r)
    ∧ matched r ++ missing r ≡ₚ data A
    ∧ ∀ i, i ∈ matched r → i ∉ missing r.
Proof.
  intros HA HB [column Hkey].
  pose proof (cross_check_compared A B selectedColumn column Hkey HA HB) as Hr.
  simpl in Hr. eexists. split; [exact Hr|].
  unfold matched, missing; simpl. rewrite !default_saved.
  set (keep := in_file2 _ _ _).
  assert (filter (λ i, keep i = true) (data A)
          ++ filter (λ i, keep i ≠ true) (data A) ≡ₚ data A) as Hperm
    by apply filter_app_complement.
  repeat split; try done.
  - by rewrite <-length_app, Hperm.
  - intros i [Hyes _]%list_elem_of_filter [Hno _]%list_elem_of_filter. done.
Qed.

(** C5.  When File B has no rows, File A has some and the comparison column
    is resolved, the handler answers 200 with both partitions empty and both
    counts zero; File A's rows are not reported as missing. *)
Theorem empty_B_both_partitions_empty A B selectedColumn :
  data B = [] → data A ≠ [] →
  is_Some (actualComparisonColumn A B selectedColumn) →
  ∃ r : response number (type A),
    cross_check A B selectedColumn = Status200 r
    ∧ matched r = [] ∧ missing r = []
    ∧ foundCount r = 0 ∧ missingCount r = 0
    ∧ missingContents r = []
    ∧ totalFile1Rows r = length (data A).
Proof.
  intros HB HA [column Hkey]. eexists.
  split; [by apply (cross_check_empty_B A B selectedColumn column)|done].
Qed.

(** C8.  In every 200 answer, [matched] and [missing] are each a
    subsequence of File A's rows, in File A's row order. *)
Theorem partitions_keep_row_order A B selectedColumn (r : response number (type A)) :
  cross_check A B selectedColumn = Status200 r →
  matched r `sublist_of` data A ∧ missing r `sublist_of` data A.
Proof.
  intros [keep [[-> ->]|[-> ->]]]%cross_check_200.
  - split; apply sublist_filter.
  - split; apply sublist_nil_l.
Qed.

End partition_claims.

(** ** Keys: coercion, empty values, unknown columns *)

Section key_claims.
Context {number : Type} `{!JsNumber number}.
Implicit Types (A B : fileContent number) (selectedColumn : option string).

Lemma in_file2_true t column (set : list string) (item1 : item number t) :
  in_file2 t column set item1 = true ↔
  has_content (value1 t column item1) = true
  ∧ String_ (value1 t column item1) ∈ set.
Proof. unfold in_file2; simpl. by rewrite andb_true_iff, Set_has_true. Qed.

(** With the column resolved, a row of File A is in [matched] exactly when its
    key value has content and has the string form of some key value with
    content of File B.  (With File A or File B empty both sides are false.) *)
Lemma matched_iff A B selectedColumn column :
  actualComparisonColumn A B selectedColumn = Some column →
  ∃ r : response number (type A),
    cross_check A B selectedColumn = Status200 r
    ∧ comparisonColumn r = column
    ∧ foundCount r = length (matched r)
    ∧ (∀ item1, item1 ∈ data A → data B ≠ [] → item1 ∉ matched r → item1 ∈ missing r)
    ∧ (∀ item1, item1 ∈ matched r → item1 ∈ data A)
    ∧ ∀ item1, item1 ∈ data A →
        (item1 ∈ matched r ↔
         has_content (value1 (type A) column item1) = true
         ∧ ∃ item2, item2 ∈ data B
             ∧ has_content (value1 (type B) column item2) = true
             ∧ String_ (value1 (type B) column item2)
               = String_ (value1 (type A) column item1)).
Proof.
  intros Hkey.
  destruct (decide (data A = [])) as [HA|HA].
  { eexists. split; [by apply (cross_check_empty_A A B selectedColumn column)|].
    split_and!; [done|done|..]; intros item1 Hin; try (by apply elem_of_nil in Hin);
      rewrite HA in Hin; by apply elem_of_nil in Hin. }
  destruct (decide (data B = [])) as [HB|HB].
  { eexists. split; [by apply (cross_check_empty_B A B selectedColumn column)|].
    split_and!; [done|done|by intros|by intros ? ?%elem_of_nil|].
    intros item1 _. split; [by intros ?%elem_of_nil|].
    intros (_ & item2 & Hin & _). rewrite HB in Hin. by apply elem_of_nil in Hin. }
  pose proof (cross_check_compared A B selectedColumn column Hkey HA HB) as Hr.
  simpl in Hr. eexists. split; [exact Hr|].
  unfold matched, missing; simpl. rewrite !default_saved.
  split_and!; [done|done|..].
  - intros item1 Hin _ Hnot. apply list_elem_of_filter. split; [|done].
    intros Hyes. apply Hnot. by apply list_elem_of_filter.
  - by intros item1 [_ ?]%list_elem_of_filter.
  - intros item1 Hin. rewrite list_elem_of_filter, in_file2_true.
    rewrite elem_of_values2Set. split.
    + by intros [[Hc Hex] _].
    + intros [Hc Hex]. by repeat split.
Qed.

Lemma own_assign_other (obj : object number) (h k : string) (v : value number) :
  h ≠ k → own (assign obj h v) !! k = own obj !! k.
Proof.
  intros Hne. unfold assign.
  destruct (bool_decide (h = "__proto__") && inherits obj).
  - by destruct v.
  - simpl. by apply lookup_insert_ne.
Qed.

Lemma own_assign_eq (obj : object number) (h : string) (v : value number) :
  h ≠ "__proto__" → own (assign obj h v) !! h = Some v.
Proof.
  intros Hh. unfold assign. rewrite (bool_decide_eq_false_2 (h = "__proto__")) by done.
  simpl. apply lookup_insert_eq.
Qed.

Lemma forEach_header_other (hs : list string) (index : nat)
    (row : list (cell number)) (obj : object number) (k : string) :
  k ∉ hs → own (forEach_header hs index row obj) !! k = own obj !! k.
Proof.
  revert index obj. induction hs as [|h hs IH]; intros index obj Hk; simpl; [done|].
  apply not_elem_of_cons in Hk as [Hne Hk].
  rewrite IH by done. by apply own_assign_other.
Qed.

Lemma get_not_inherited (obj : object number) (k : string) :
  own obj !! k = None → k ∉ Object_prototype_members → get obj k = VUndefined.
Proof.
  intros Hown Hk. unfold get. rewrite Hown.
  by rewrite (bool_decide_eq_false_2 (k ∈ Object_prototype_members)), andb_false_r.
Qed.

(** Under a name that is neither a header nor a member of
    [Object.prototype], the rows [readFileContent] builds hold nothing. *)
Lemma readFileContent_rows_keyed (rawData : list (list (cell number))) (k : string)
    (row : item number (type (readFileContent (Workbook rawData)))) :
  row ∈ data (readFileContent (Workbook rawData)) →
  k ∉ headers (readFileContent (Workbook rawData)) →
  k ∉ Object_prototype_members →
  value1 _ k row = VUndefined.
Proof.
  destruct rawData as [|row0 rest]; simpl.
  - by intros ?%elem_of_nil.
  - intros (r & -> & _)%list_elem_of_fmap Hk Hmember.
    apply get_not_inherited; [|done]. by rewrite forEach_header_other.
Qed.

(** C2.  For two structured files and a column among File A's headers, a row
    of File A is in [matched] exactly when the string form of its key value
    is the string form of the key value of some row of File B (both values
    having content); the types of the values play no part.  So a row holding
    a number that prints as "5" is matched by a File B row holding the text
    "5", and a row holding the text "5" by a File B row holding that number. *)
Theorem matched_by_string_coercion
    (rowsA rowsB : list (object number))
    (headersA headersB : list string) (firstA firstB : option string)
    (column : string) :
  let A := structuredContent rowsA headersA firstA in
  let B := structuredContent rowsB headersB firstB in
  column ∈ headersA →
  ∃ r : response number structured,
    cross_check A B (Some column) = Status200 r
    ∧ (∀ rowA, rowA ∈ rowsA →
        (rowA ∈ matched r ↔
         has_content (get rowA column) = true
         ∧ ∃ rowB, rowB ∈ rowsB ∧ has_content (get rowB column) = true
             ∧ String_ (get rowB column) = String_ (get rowA column)))
    ∧ (∀ (five : number) rowA rowB, Number_toString five = "5" →
        rowA ∈ rowsA → rowB ∈ rowsB →
        get rowA column = VNum five → get rowB column = VStr "5" →
        rowA ∈ matched r)
    ∧ (∀ (five : number) rowA rowB, Number_toString five = "5" →
        rowA ∈ rowsA → rowB ∈ rowsB →
        get rowA column = VStr "5" → get rowB column = VNum five →
        rowA ∈ matched r).
Proof.
  intros A B Hcol.
  destruct (matched_iff A B (Some column) column) as (r & Hr & _ & _ & _ & _ & Hiff).
  { unfold actualComparisonColumn; simpl. by rewrite bool_decide_eq_true_2. }
  exists r. split; [exact Hr|]. split_and!.
  - exact Hiff.
  - intros five rowA rowB Hfive HA HB HvA HvB. apply (Hiff rowA HA); simpl.
    rewrite HvA. split; [done|]. exists rowB. rewrite HvB. simpl. by rewrite Hfive.
  - intros five rowA rowB Hfive HA HB HvA HvB. apply (Hiff rowA HA); simpl.
    rewrite HvA. split; [done|]. exists rowB. rewrite HvB. simpl. by rewrite Hfive.
Qed.


(** X21.  For two structured files, File B as read from a workbook, the
    handler answers 400 exactly when the requested column is not among
    File A's headers.  A requested column among File A's headers, not among
    File B's and not the name of a member of [Object.prototype] is accepted:
    File B's rows add nothing to the lookup set, and the 200 answer has no
    matched row. *)
Theorem unknown_key_exactly_when_absent_from_A
    (rowsA : list (object number)) (headersA : list string)
    (firstA : option string) (rawDataB : list (list (cell number)))
    (selectedColumn : option string) :
  let A := structuredContent rowsA headersA firstA in
  let B := readFileContent (Workbook rawDataB) in
  (UnknownComparisonKey (cross_check A B selectedColumn) ↔
   ¬ ∃ column, selectedColumn = Some column ∧ column ∈ headersA)
  ∧ ∀ column, selectedColumn = Some column →
      column ∈ headersA → column ∉ headers B →
      column ∉ Object_prototype_members →
      values2Set (type B) column (data B) = []
      ∧ ∃ r : response number structured,
          cross_check A B selectedColumn = Status200 r
          ∧ matched r = [] ∧ foundCount r = 0.
Proof.
  intros A B.
  assert (type B = structured) as HtB by (subst B; by destruct rawDataB).
  split.
  - destruct (actualComparisonColumn A B selectedColumn) as [c|] eqn:Hkey.
    + destruct (matched_iff A B selectedColumn c Hkey) as (r & Hr & _).
      rewrite Hr; simpl. split; [done|]. intros Hno. apply Hno.
      unfold actualComparisonColumn in Hkey; simpl in Hkey. rewrite HtB in Hkey.
      destruct selectedColumn as [c'|]; [|done].
      case_bool_decide; [|done]. by exists c'.
    + rewrite cross_check_unknown_key by done; simpl. split; [|done].
      intros _ (c & -> & Hc).
      unfold actualComparisonColumn in Hkey; simpl in Hkey. rewrite HtB in Hkey.
      by rewrite bool_decide_eq_true_2 in Hkey.
  - intros column -> HcA HcB Hmember.
    assert (∀ row : item number (type B), row ∈ data B →
              has_content (value1 (type B) column row) = false) as Hrows.
    { intros row Hrow.
      by rewrite (readFileContent_rows_keyed rawDataB column row Hrow HcB Hmember
                  : value1 (type B) column row = VUndefined). }
    assert (values2Set (type B) column (data B) = []) as Hset.
    { apply elem_of_nil_inv. intros s (row & Hrow & Hc & _)%elem_of_values2Set.
      by rewrite Hrows in Hc. }
    split; [exact Hset|].
    destruct (matched_iff A B (Some column) column)
      as (r & Hr & _ & Hcount & _ & Hsub & Hiff).
    { unfold actualComparisonColumn; simpl. rewrite HtB.
      by rewrite bool_decide_eq_true_2. }
    exists r. split; [exact Hr|].
    assert (matched r = []) as Hnil.
    { apply elem_of_nil_inv. intros rowA HrowA.
      apply (Hiff rowA (Hsub rowA HrowA)) in HrowA as (_ & rowB & HrowB & Hc & _).
      by rewrite Hrows in Hc. }
    split; [done|]. rewrite Hnil in Hcount. exact Hcount.
Qed.

End key_claims.

(** ** Empty File A, and plain text *)

Section resolution_claims.
Context {number : Type} `{!JsNumber number}.
Implicit Types (A B : fileContent number) (selectedColumn : option string).

(** The column is resolved exactly when a file is plain text or the
    requested column is among File A's headers. *)
Lemma actualComparisonColumn_is_Some A B selectedColumn :
  is_Some (actualComparisonColumn A B selectedColumn) ↔
  type A = plain_text ∨ type B = plain_text
  ∨ ∃ column, selectedColumn = Some column ∧ column ∈ headers A.
Proof.
  unfold actualComparisonColumn.
  destruct (type A), (type B); try (split; [auto|by eexists]).
  destruct selectedColumn as [c|].
  - case_bool_decide as Hc.
    + split; [|by eexists]. intros _. right; right. by exists c.
    + split; [by intros [? ?]|]. intros [?|[?|(c' & [= <-] & ?)]]; done.
  - split; [by intros [? ?]|]. intros [?|[?|(c' & ? & ?)]]; done.
Qed.

Lemma actualComparisonColumn_plain A B selectedColumn :
  type A = plain_text ∨ type B = plain_text →
  actualComparisonColumn A B selectedColumn = Some "Line Content".
Proof.
  unfold actualComparisonColumn.
  intros [HA|HB]; [by rewrite HA|rewrite HB; by destruct (type A)].
Qed.

(** C6, as the handler has it.  When File A has no rows and the column is
    resolved (a file is plain text, or the requested column is among
    File A's headers), the handler answers 200 with [matched] and [missing]
    empty and both counts zero. *)
Theorem empty_A_with_resolved_column A B selectedColumn :
  type A = plain_text ∨ type B = plain_text
  ∨ (∃ column, selectedColumn = Some column ∧ column ∈ headers A) →
  data A = [] →
  ∃ r : response number (type A),
    cross_check A B selectedColumn = Status200 r
    ∧ matched r = [] ∧ missing r = []
    ∧ foundCount r = 0 ∧ missingCount r = 0
    ∧ missingContents r = [] ∧ totalFile1Rows r = 0.
Proof.
  intros [column Hkey]%actualComparisonColumn_is_Some HA. eexists.
  split; [by apply (cross_check_empty_A A B selectedColumn column)|done].
Qed.

(** C7, as the handler has it.  When a file is plain text the column is
    "Line Content" whatever was requested.  A plain text File A is then
    compared line by line: a line is matched exactly when it is not empty
    and is in the lookup set of File B.  A structured File A against a plain
    text File B is compared by the value its rows hold under the header
    "Line Content": a row is matched exactly when that value has content and
    its string form is a line of File B, so a row without such a column is
    never matched.  In both cases a record that is not matched is in
    [missing] when File B has a row or a line. *)
Theorem plain_text_forces_line_content :
  (∀ A B selectedColumn,
     type A = plain_text ∨ type B = plain_text →
     actualComparisonColumn A B selectedColumn = Some "Line Content"
     ∧ cross_check A B selectedColumn = cross_check A B None)
  ∧ (∀ (lines headersA : list string) (firstA : option string) B selectedColumn,
       let A := plainTextContent lines headersA firstA in
       ∃ r : response number plain_text,
         cross_check A B selectedColumn = Status200 r
         ∧ comparisonColumn r = "Line Content"
         ∧ ∀ line, line ∈ lines →
             (line ∈ matched r ↔
              line ≠ "" ∧ line ∈ values2Set (type B) "Line Content" (data B))
             ∧ (data B ≠ [] → line ∉ matched r → line ∈ missing r))
  ∧ (∀ (rowsA : list (object number)) (linesB : list string)
       (headersA headersB : list string) (firstA firstB : option string)
       selectedColumn,
       let A := structuredContent rowsA headersA firstA in
       let B := plainTextContent linesB headersB firstB in
       ∃ r : response number structured,
         cross_check A B selectedColumn = Status200 r
         ∧ comparisonColumn r = "Line Content"
         ∧ ∀ row, row ∈ rowsA →
             (row ∈ matched r ↔
              has_content (get row "Line Content") = true
              ∧ String_ (get row "Line Content") ∈ linesB)
             ∧ (own row !! "Line Content" = None → row ∉ matched r)
             ∧ (linesB ≠ [] → row ∉ matched r → row ∈ missing r)).
Proof.
  split_and!.
  - intros A B selectedColumn Hplain.
    split; [by apply actualComparisonColumn_plain|].
    unfold cross_check. by rewrite !actualComparisonColumn_plain.
  - intros lines headersA firstA B selectedColumn A.
    destruct (matched_iff A B selectedColumn "Line Content")
      as (r & Hr & Hcol & _ & Hmiss & _ & Hiff).
    { apply actualComparisonColumn_plain. by left. }
    exists r. split_and!; [done|done|].
    intros line Hline. split; [|by apply Hmiss].
    etrans; [exact (Hiff line Hline)|]; simpl.
    rewrite negb_true_iff, bool_decide_eq_false, elem_of_values2Set. done.
  - intros rowsA linesB headersA headersB firstA firstB selectedColumn A B.
    destruct (matched_iff A B selectedColumn "Line Content")
      as (r & Hr & Hcol & _ & Hmiss & _ & Hiff).
    { apply actualComparisonColumn_plain. by right. }
    exists r. split_and!; [done|done|].
    intros row Hrow.
    assert (row ∈ matched r ↔
            has_content (get row "Line Content") = true
            ∧ String_ (get row "Line Content") ∈ linesB) as Hrow_iff.
    { etrans; [exact (Hiff row Hrow)|]; simpl. split.
      + intros (Hc & line & Hline & _ & <-). done.
      + intros (Hc & Hline). split; [done|].
        exists (String_ (get row "Line Content")). split_and!; [done| |done].
        rewrite negb_true_iff, bool_decide_eq_false.
        by apply String_has_content. }
    split_and!; [exact Hrow_iff| |by apply Hmiss].
    intros Hown [Hc _]%Hrow_iff.
    rewrite get_not_inherited in Hc; [done|done|].
    apply (bool_decide_unpack ("Line Content" ∉ Object_prototype_members)).
    reflexivity.
Qed.

End resolution_claims.

(** ** Headers *)

Lemma trimStart_head (s : string) :
  trimStart s = "" ∨ ∃ c r, trimStart s = String c r ∧ is_white_space c = false.
Proof.
  induction s as [|c s IH]; simpl; [by left|].
  destruct (is_white_space c) eqn:Hc; [exact IH|]. right. by exists c, s.
Qed.

Lemma trimEnd_head (c : ascii) (r : string) :
  is_white_space c = false → trimEnd (String c r) = String c (trimEnd r).
Proof. intros Hc; simpl. destruct (trimEnd r); by rewrite ?Hc. Qed.

Lemma trimEnd_idemp (s : string) : trimEnd (trimEnd s) = trimEnd s.
Proof.
  induction s as [|c s IH]; [done|]. simpl.
  destruct (trimEnd s) as [|c' r] eqn:Hs.
  - destruct (is_white_space c) eqn:Hc; [done|]. simpl. by rewrite Hc.
  - change (trimEnd (String c (String c' r))) with
      (match trimEnd (String c' r) with
       | EmptyString => if is_white_space c then EmptyString else String c EmptyString
       | r' => String c r'
       end).
    by rewrite IH.
Qed.

Lemma trim_idemp (s : string) : trim (trim s) = trim s.
Proof.
  unfold trim. destruct (trimStart_head s) as [->|(c & r & -> & Hc)]; [done|].
  rewrite trimEnd_head by done. simpl. rewrite Hc.
  rewrite trimEnd_head by done. by rewrite trimEnd_idemp.
Qed.

Section header_claims.
Context {number : Type} `{!JsNumber number}.

Lemma clean_header_trimmed (h : cell number) : trim (clean_header h) = clean_header h.
Proof. unfold clean_header. apply trim_idemp. Qed.

(** A name occurs among the headers as often as among the cleaned cells. *)
Lemma count_clean_headers (row0 : list (cell number)) (h : string) :
  h ≠ "" →
  length (filter (λ x, x = h) (filter (λ x, x ≠ "") (clean_header <$> row0)))
  = length (filter (λ c, clean_header c = h) row0).
Proof.
  intros Hh. induction row0 as [|c row0 IH]; [done|].
  rewrite fmap_cons. destruct (decide (clean_header c = "")) as [Hc|Hc].
  - rewrite (filter_cons_False (λ x, x ≠ "")) by (by intros ?).
    rewrite (filter_cons_False (λ c, clean_header c = h)) by congruence.
    exact IH.
  - rewrite (filter_cons_True (λ x, x ≠ "")) by done.
    destruct (decide (clean_header c = h)) as [Hch|Hch].
    + rewrite !filter_cons_True by done. simpl. by rewrite IH.
    + rewrite !filter_cons_False by done. exact IH.
Qed.

(** The earlier reader never takes a key out of a row. *)
Lemma historical_assign_keeps (obj : object number) (h k : string) (v : value number) :
  is_Some (own obj !! k) → is_Some (own (assign obj h v) !! k).
Proof.
  intros Hk. unfold assign.
  destruct (bool_decide (h = "__proto__") && inherits obj).
  - by destruct v.
  - simpl. destruct (decide (h = k)) as [->|Hne].
    + rewrite lookup_insert_eq. by eexists.
    + by rewrite lookup_insert_ne.
Qed.

Lemma historical_forEach_header_keeps (hs : list (cell number)) (index : nat)
    (row : list (cell number)) (obj : object number) (k : string) :
  is_Some (own obj !! k) →
  is_Some (own (HistoricalServer.forEach_header hs index row obj) !! k).
Proof.
  revert index obj. induction hs as [|c hs IH]; intros index obj Hk; [done|].
  destruct c as [[| |b|n|t]|d]; simpl;
    first [by apply IH | by apply IH, historical_assign_keeps].
Qed.

(** Every header cell that is not a hole names a key of the row, whatever
    its text; the one name that is never stored is [__proto__]. *)
Lemma historical_forEach_header_key (hs : list (cell number)) (index : nat)
    (row : list (cell number)) (obj : object number) (c : cell number) :
  c ∈ hs → c ≠ Scalar VUndefined →
  HistoricalServer.property_key c ≠ "__proto__" →
  is_Some (own (HistoricalServer.forEach_header hs index row obj)
             !! HistoricalServer.property_key c).
Proof.
  intros Hc Hhole Hproto. revert index obj.
  induction hs as [|c0 hs IH]; intros index obj; [by apply elem_of_nil in Hc|].
  apply elem_of_cons in Hc as [<-|Hc].
  - assert (∀ v, is_Some (own (assign obj (HistoricalServer.property_key c) v)
                            !! HistoricalServer.property_key c)) as Hstored.
    { intros v. rewrite own_assign_eq by done. by eexists. }
    destruct c as [[| |b|n|t]|d]; simpl; first [done |
      apply historical_forEach_header_keeps, Hstored].
  - destruct c0 as [[| |b|n|t]|d]; simpl; by apply IH.
Qed.

(** The rows of the earlier reader have no key but those the header cells
    give. *)
Lemma historical_forEach_header_keys_from (hs : list (cell number)) (index : nat)
    (row : list (cell number)) (obj : object number) (k : string) :
  is_Some (own (HistoricalServer.forEach_header hs index row obj) !! k) →
  is_Some (own obj !! k)
  ∨ ∃ c, c ∈ hs ∧ c ≠ Scalar VUndefined ∧ HistoricalServer.property_key c = k.
Proof.
  revert index obj. induction hs as [|c hs IH]; intros index obj Hk; [by left|].
  assert (∀ v,
    is_Some (own (HistoricalServer.forEach_header hs (S index) row
                    (assign obj (HistoricalServer.property_key c) v)) !! k) →
    c ≠ Scalar VUndefined →
    is_Some (own obj !! k)
    ∨ ∃ c', c' ∈ c :: hs ∧ c' ≠ Scalar VUndefined
            ∧ HistoricalServer.property_key c' = k) as Hstep.
  { intros v Hv Hhole. destruct (IH _ _ Hv) as [Hobj|(c' & Hc' & ? & ?)].
    - destruct (decide (HistoricalServer.property_key c = k)) as [Heq|Hne].
      + right. exists c. split; [apply list_elem_of_here|done].
      + left. by rewrite own_assign_other in Hobj.
    - right. exists c'. split; [by apply elem_of_cons; right|done]. }
  destruct c as [[| |b|n|t]|d]; simpl in Hk;
    try (by apply (Hstep _ Hk)).
  destruct (IH _ _ Hk) as [?|(c' & Hc' & ? & ?)]; [by left|].
  right. exists c'. split; [by apply elem_of_cons; right|done].
Qed.

(** C9, as the two readers have it.  The present reader: no header of a
    file that was read is blank or made of white space only, each is a
    non-empty string that trimming leaves unchanged; for a workbook the
    headers are the cleaned cells of its first row that are not empty, in
    their order, so a blank cell gives no header, and a name occurs among
    the headers as many times as cells clean to it: equal names are all
    kept.  The earlier reader returns no list of headers; the columns of its
    table are the keys of its rows, which are the header cells as they
    stand: every cell of the first row that is not a hole is a key of every
    row ([__proto__] apart), be it blank or white space, and the rows have
    no other key. *)
Theorem headers_not_blank :
  (∀ file : upload number,
     Forall (λ h, h ≠ "" ∧ trim h ≠ "" ∧ trim h = h) (headers (readFileContent file))
     ∧ match file with
       | Workbook (row0 :: _) =>
           headers (readFileContent file) `sublist_of` (clean_header <$> row0)
           ∧ (∀ h, h ∈ headers (readFileContent file) ↔
                   h ≠ "" ∧ ∃ c, c ∈ row0 ∧ clean_header c = h)
           ∧ (∀ h, h ≠ "" →
                length (filter (λ x, x = h) (headers (readFileContent file)))
                = length (filter (λ c, clean_header c = h) row0))
       | _ => headers (readFileContent file) = []
       end)
  ∧ (∀ (row0 : list (cell number)) (rest : list (list (cell number))),
       Forall (λ row : object number,
                 (∀ c, c ∈ row0 → c ≠ Scalar VUndefined →
                       HistoricalServer.property_key c ≠ "__proto__" →
                       is_Some (own row !! HistoricalServer.property_key c))
                 ∧ (∀ k, is_Some (own row !! k) →
                         ∃ c, c ∈ row0 ∧ c ≠ Scalar VUndefined
                              ∧ HistoricalServer.property_key c = k))
         (HistoricalServer.data
            (HistoricalServer.readFileContent
               (HistoricalServer.Workbook (row0 :: rest))))).
Proof.
  split.
  - intros file.
    destruct file as [[|row0 rest]|content]; simpl; try (split; [constructor|done]).
    split; [|split_and!].
    + apply Forall_forall.
      intros h [Hne (c & -> & _)%list_elem_of_fmap]%list_elem_of_filter.
      rewrite clean_header_trimmed. done.
    + apply sublist_filter.
    + intros h. rewrite list_elem_of_filter, list_elem_of_fmap. split.
      * intros [Hne (c & -> & Hc)]. split; [done|]. by exists c.
      * intros [Hne (c & Hc & <-)]. split; [done|]. by exists c.
    + intros h Hh. by apply count_clean_headers.
  - intros row0 rest. simpl. apply Forall_fmap, Forall_forall. intros row _; simpl.
    split.
    + intros c Hc Hhole Hproto. by apply historical_forEach_header_key.
    + intros k Hk.
      apply historical_forEach_header_keys_from in Hk as [[v Hv]|Hk]; [|done].
      simpl in Hv. by rewrite lookup_empty in Hv.
Qed.

End header_claims.

(** ** The earlier server against the present one *)

Section historical_claims.
Context {number : Type} `{!JsNumber number}.

Lemma historical_compare_item_in_file2 t column (set : list (property number)) acc
    (item1 : item number t) :
  Historical.compare_item t column set acc item1 =
    if Historical.in_file2 t column set item1
    then (acc.1 ++ [item1], acc.2) else (acc.1, acc.2 ++ [item1]).
Proof.
  unfold Historical.compare_item, Historical.in_file2; simpl.
  destruct (has_content _); [destruct (Set_has _ _)|]; done.
Qed.

Lemma historical_compare_loop_filter t column (set : list (property number))
    (data1 : list (item number t)) :
  Historical.compare_loop t column set data1 =
    (filter (λ i, Historical.in_file2 t column set i = true) data1,
     filter (λ i, Historical.in_file2 t column set i ≠ true) data1).
Proof.
  unfold Historical.compare_loop.
  enough (∀ acc, fold_left (Historical.compare_item t column set) data1 acc =
    (acc.1 ++ filter (λ i, Historical.in_file2 t column set i = true) data1,
     acc.2 ++ filter (λ i, Historical.in_file2 t column set i ≠ true) data1))
    as Hacc by apply Hacc.
  induction data1 as [|item1 data1 IH]; intros [found miss]; simpl.
  - by rewrite !filter_nil, !app_nil_r.
  - rewrite IH, historical_compare_item_in_file2.
    destruct (Historical.in_file2 t column set item1) eqn:Hin; simpl.
    + rewrite filter_cons_True, filter_cons_False by (by rewrite Hin; auto).
      by rewrite <-app_assoc.
    + rewrite filter_cons_False, filter_cons_True by (by rewrite Hin; auto).
      by rewrite <-app_assoc.
Qed.

Lemma historical_elem_of_values2Set t column (data2 : list (item number t))
    (v : property number) :
  v ∈ Historical.values2Set t column data2 ↔
  ∃ item2, item2 ∈ data2 ∧ has_content (value1 t column item2) = true
           ∧ value1 t column item2 = v.
Proof.
  destruct t; simpl.
  - rewrite (elem_of_forEach_add (λ row, get row column) (λ row, get row column)).
    split; [intros [Hnil|?]; [by apply elem_of_nil in Hnil|done]|by right].
  - rewrite (elem_of_forEach_add (λ line, Own (VStr line) : property number)
               (λ line, Own (VStr line) : property number)).
    split; [intros [Hnil|?]; [by apply elem_of_nil in Hnil|done]|by right].
Qed.

Lemma filter_ext_in {X : Type} (P Q : X → Prop)
    `{!∀ x, Decision (P x)} `{!∀ x, Decision (Q x)} (l : list X) :
  (∀ x, x ∈ l → (P x ↔ Q x)) → filter P l = filter Q l.
Proof.
  induction l as [|x l IH]; intros Hext; [done|].
  rewrite !filter_cons.
  rewrite IH by (intros y Hy; apply Hext, elem_of_cons; by right).
  pose proof (Hext x (list_elem_of_here x l)) as Hx.
  destruct (decide (P x)), (decide (Q x)); tauto || done.
Qed.

(** C10, as the two servers have it.  On tables and a column where a key
    value of File A and a key value of File B that have the same string form
    are the same value (so whenever all key values are strings), the lookup
    set and loop of the earlier server give the same [foundInFile2] and
    [missingInFile2], hence the same counts, as those of the present one. *)
Theorem historical_loop_agrees (tA tB : fileType) (column : string)
    (data1 : list (item number tA)) (data2 : list (item number tB)) :
  (∀ item1 item2, item1 ∈ data1 → item2 ∈ data2 →
     has_content (value1 tA column item1) = true →
     has_content (value1 tB column item2) = true →
     String_ (value1 tB column item2) = String_ (value1 tA column item1) →
     value1 tB column item2 = value1 tA column item1) →
  Historical.compare_loop tA column (Historical.values2Set tB column data2) data1
  = compare_loop tA column (values2Set tB column data2) data1.
Proof.
  intros Hfaithful.
  rewrite historical_compare_loop_filter, compare_loop_filter.
  assert (∀ item1, item1 ∈ data1 →
    (Historical.in_file2 tA column (Historical.values2Set tB column data2) item1 = true
     ↔ in_file2 tA column (values2Set tB column data2) item1 = true)) as Hsame.
  { intros item1 Hin. rewrite in_file2_true, elem_of_values2Set.
    unfold Historical.in_file2; simpl.
    rewrite andb_true_iff, Set_has_true, historical_elem_of_values2Set.
    change (Historical.value1 tA column item1) with (value1 tA column item1).
    split.
    - intros (Hc & item2 & ? & ? & Heq). split; [done|].
      exists item2. by rewrite Heq.
    - intros (Hc & item2 & ? & ? & Heq). split; [done|].
      exists item2. split_and!; [done|done|]. by apply Hfaithful. }
  f_equal; apply filter_ext_in; intros item1 Hin;
    specialize (Hsame item1 Hin); tauto.
Qed.

End historical_claims.

(** * The claims on the sample uploads *)

Section samples.
Import Sample.

Example split_lines_crlf :
  split_lines ("a" +:+ String "013" (String "010" "b") +:+ String "010" ""
               +:+ String "013" "c")
  = ["a"; "b"; String "013" "c"].
Proof. reflexivity. Qed.

Example trim_both_ends : trim "  id  x " = "id  x".
Proof. reflexivity. Qed.

Example formatDate_pads :
  formatDate {| date_isNaN := false; getFullYear := 2024; getMonth := 0;
                getDate := 9; Date_toString := "Tue Jan 09 2024" |}
  = "2024-01-09".
Proof. reflexivity. Qed.

Example readFileContent_sheetA :
  headers (readFileContent sheetA) = ["id"; "name"]
  ∧ firstColumnHeader (readFileContent sheetA) = Some "id"
  ∧ data (readFileContent sheetA)
    = [ obj {[ "id" := VStr "1"; "name" := VStr "x" ]};
        obj {[ "id" := VStr "2"; "name" := VStr "y" ]} ].
Proof. split_and!; [done|done|]. by vm_compute. Qed.

(** The structured scenario of the specification: key [id], one row found,
    one missing. *)
Example scenario_structured :
  ∃ r, cross_check (readFileContent sheetA) (readFileContent sheetB) (Some "id")
       = Status200 r
    ∧ matched r = [ obj {[ "id" := VStr "2"; "name" := VStr "y" ]} ]
    ∧ missing r = [ obj {[ "id" := VStr "1"; "name" := VStr "x" ]} ]
    ∧ (foundCount r, missingCount r) = (1, 1).
Proof. eexists. split; [by vm_compute|]. split_and!; by vm_compute. Qed.

(** The plain text scenario: lines [foo], [bar] against the line [bar]. *)
Example scenario_plain_text :
  ∃ r, cross_check (readFileContent textFooBar) (readFileContent textBar) None
       = Status200 r
    ∧ matched r = ["bar"] ∧ missing r = ["foo"].
Proof. eexists. split; [by vm_compute|]. split; by vm_compute. Qed.

Lemma partition_total_exclusive_witness :
  ∃ r, cross_check (readFileContent sheetA) (readFileContent sheetB) (Some "id")
       = Status200 r
    ∧ foundCount r + missingCount r = totalFile1Rows r
    ∧ totalFile1Rows r = 2.
Proof.
  destruct (partition_total_exclusive (readFileContent sheetA)
              (readFileContent sheetB) (Some "id"))
    as (r & Hr & Hsum & Htotal & _).
  - by vm_compute.
  - by vm_compute.
  - eexists. by vm_compute.
  - exists r. split_and!; [exact Hr|exact Hsum|exact Htotal].
Defined.

Lemma matched_by_string_coercion_witness :
  ∃ r, cross_check (readFileContent sheetNum5) (readFileContent sheetStr5) (Some "id")
       = Status200 r
    ∧ obj {[ "id" := VNum 5%Z ]} ∈ matched r.
Proof.
  destruct (matched_by_string_coercion
              [ obj {[ "id" := VNum 5%Z ]} ] [ obj {[ "id" := VStr "5" ]} ]
              ["id"] ["id"] (Some "id") (Some "id") "id")
    as (r & Hr & _ & Hfive & _).
  - apply list_elem_of_here.
  - exists r. split; [exact Hr|].
    apply (Hfive 5%Z (obj {[ "id" := VNum 5%Z ]}) (obj {[ "id" := VStr "5" ]}));
      first [reflexivity | apply list_elem_of_here].
Defined.


(** C4, at a column that File B lacks and every object inherits.  File A
    has the one column [constructor], File B the one column [name].  The
    requested column [constructor] is accepted; File B's rows, built on
    [{}], answer [row["constructor"]] with the inherited function [Object],
    whose string form enters the lookup set; File A's row, holding that
    text, is matched. *)
Theorem inherited_column_is_looked_up :
  headers (readFileContent sheetConstructor) = ["constructor"]
  ∧ headers (readFileContent sheetNoId) = ["name"]
  ∧ values2Set structured "constructor"
      (data (readFileContent sheetNoId) : list (object Z))
    = ["function Object() { [native code] }"]
  ∧ ∃ r, cross_check (readFileContent sheetConstructor) (readFileContent sheetNoId)
           (Some "constructor")
         = Status200 r
      ∧ matched r = data (readFileContent sheetConstructor)
      ∧ foundCount r = 1 ∧ missingCount r = 0.
Proof.
  split_and!; try (by vm_compute).
  eexists. split; [by vm_compute|]. split_and!; by vm_compute.
Qed.


Lemma empty_B_both_partitions_empty_witness :
  ∃ r, cross_check (readFileContent sheetA) (readFileContent sheetHeaderOnly) (Some "id")
       = Status200 r
    ∧ matched r = [] ∧ missing r = [] ∧ foundCount r = 0 ∧ missingCount r = 0.
Proof.
  destruct (empty_B_both_partitions_empty (readFileContent sheetA)
              (readFileContent sheetHeaderOnly) (Some "id"))
    as (r & Hr & Hm & Hn & Hf & Hc & _).
  - by vm_compute.
  - by vm_compute.
  - eexists. by vm_compute.
  - exists r. by split_and!.
Defined.

Lemma partitions_keep_row_order_witness :
  [ obj {[ "id" := VStr "2"; "name" := VStr "y" ]} ]
    `sublist_of` data (readFileContent sheetA)
  ∧ [ obj {[ "id" := VStr "1"; "name" := VStr "x" ]} ]
    `sublist_of` data (readFileContent sheetA).
Proof.
  apply (partitions_keep_row_order (readFileContent sheetA) (readFileContent sheetB)
           (Some "id")
           (@Build_response Z structured
              "Cross-check completed successfully! CSV files generated." 1 1
              [ obj {[ "id" := VStr "1"; "name" := VStr "x" ]} ] 2
              (Some [ obj {[ "id" := VStr "2"; "name" := VStr "y" ]} ])
              (Some [ obj {[ "id" := VStr "1"; "name" := VStr "x" ]} ])
              "id")).
  by vm_compute.
Defined.

(** Against C6 as written: File A has a header row and no data row, the
    requested column is not one of its headers, and the answer is the 400 of
    the column guard, which the handler checks before it looks at the rows. *)
Lemma empty_A_unknown_column_is_refused :
  data (readFileContent sheetHeaderOnly) = []
  ∧ type (readFileContent sheetHeaderOnly) = structured
  ∧ cross_check (readFileContent sheetHeaderOnly) (readFileContent sheetB) (Some "zzz")
    = Status400 "Selected column 'zzz' not found in File A headers. Please select a valid column.".
Proof. split_and!; by vm_compute. Qed.

Lemma empty_A_with_resolved_column_witness :
  ∃ r, cross_check (readFileContent sheetHeaderOnly) (readFileContent sheetB) (Some "id")
       = Status200 r
    ∧ matched r = [] ∧ missing r = [] ∧ foundCount r = 0 ∧ missingCount r = 0.
Proof.
  destruct (empty_A_with_resolved_column (readFileContent sheetHeaderOnly)
              (readFileContent sheetB) (Some "id"))
    as (r & Hr & Hm & Hn & Hf & Hc & _).
  - right; right. exists "id". split; [reflexivity|]. vm_compute. apply list_elem_of_here.
  - by vm_compute.
  - exists r. by split_and!.
Defined.

(** Against C7 as written: File A is a sheet with the one row [id = foo],
    File B the text file with the one line [foo].  The column is forced to
    "Line Content", and the row is compared by what it holds under that
    header, which is nothing: it lands in [missing] although its text is a
    line of File B. *)
Lemma structured_row_not_compared_by_text :
  type (readFileContent sheetFoo) = structured
  ∧ type (readFileContent textFoo) = plain_text
  ∧ data (readFileContent sheetFoo) = [ obj {[ "id" := VStr "foo" ]} ]
  ∧ data (readFileContent textFoo) = ["foo"]
  ∧ value1 structured "Line Content"
      <$> (data (readFileContent sheetFoo) : list (object Z))
    = [Own VUndefined]
  ∧ ∃ r, cross_check (readFileContent sheetFoo) (readFileContent textFoo) (Some "id")
         = Status200 r
      ∧ comparisonColumn r = "Line Content"
      ∧ matched r = []
      ∧ missing r = [ obj {[ "id" := VStr "foo" ]} ].
Proof.
  split_and!; try (by vm_compute).
  eexists. split; [by vm_compute|]. split_and!; by vm_compute.
Qed.

(** Against C9 as written.  In the present reader two header cells that
    clean to the same name give two equal headers (and the blank cell between
    them none).  In the earlier reader a header cell of white space is a
    column of the rows. *)
Lemma equal_headers_and_blank_keys :
  headers (readFileContent sheetTwiceId) = ["id"; "id"]
  ∧ ¬ NoDup (headers (readFileContent sheetTwiceId))
  ∧ HistoricalServer.data
      (HistoricalServer.readFileContent (HistoricalServer.Workbook gridBlankHeader))
    = [ obj {[ "id" := VStr "1"; "  " := VStr "2" ]} ]
  ∧ trim "  " = "".
Proof.
  split_and!; try (by vm_compute).
  intros Hdup. vm_compute in Hdup.
  apply NoDup_cons in Hdup as [Hnotin _]. apply Hnotin, list_elem_of_here.
Qed.

(** Against C10 as written: File A holds the number 5 and File B the text
    "5" under [id].  The present server finds the row, the earlier one does
    not. *)
Lemma historical_loop_differs_on_mixed_types :
  compare_loop structured "id"
    (values2Set structured "id" (data (readFileContent sheetStr5)))
    (data (readFileContent sheetNum5))
  = ([ obj {[ "id" := VNum 5%Z ]} ], [])
  ∧ Historical.compare_loop structured "id"
      (Historical.values2Set structured "id" (data (readFileContent sheetStr5)))
      (data (readFileContent sheetNum5))
    = ([], [ obj {[ "id" := VNum 5%Z ]} ]).
Proof. split; by vm_compute. Qed.

Lemma historical_loop_agrees_witness :
  Historical.compare_loop structured "id"
    (Historical.values2Set structured "id" (data (readFileContent sheetB)))
    (data (readFileContent sheetA))
  = compare_loop structured "id"
      (values2Set structured "id" (data (readFileContent sheetB)))
      (data (readFileContent sheetA)).
Proof.
  apply (historical_loop_agrees structured structured "id"
           (data (readFileContent sheetA)) (data (readFileContent sheetB))).
  intros item1 item2 Hin1 Hin2 _ _.
  vm_compute in Hin1, Hin2.
  apply elem_of_cons in Hin1 as [->|Hin1];
    [|apply elem_of_cons in Hin1 as [->|Hin1]; [|by apply elem_of_nil in Hin1]];
    (apply elem_of_cons in Hin2 as [->|Hin2]; [|by apply elem_of_nil in Hin2]);
    vm_compute; congruence.
Defined.

(** A column of File A that File B lacks: accepted, and nothing matches. *)
Example column_absent_from_B :
  ∃ r, cross_check (readFileContent sheetA) (readFileContent sheetNoId) (Some "id")
       = Status200 r
    ∧ matched r = [] ∧ missing r = data (readFileContent sheetA).
Proof. eexists. split; [by vm_compute|]. split; by vm_compute. Qed.

(** With File B empty the counts do not add up to File A's rows. *)
Example empty_B_counts :
  ∃ r, cross_check (readFileContent sheetA) (readFileContent sheetHeaderOnly) (Some "id")
       = Status200 r
    ∧ foundCount r + missingCount r = 0 ∧ totalFile1Rows r = 2.
Proof. eexists. split; [by vm_compute|]. split; by vm_compute. Qed.

(** A sheet without any row has no header, so every requested column is
    refused before the handler looks at the rows. *)
Example empty_sheet_refuses_every_column :
  headers (readFileContent sheetEmpty) = []
  ∧ cross_check (readFileContent sheetEmpty) (readFileContent sheetB) (Some "id")
    = Status400 "Selected column 'id' not found in File A headers. Please select a valid column.".
Proof. split; by vm_compute. Qed.

End samples.

(** * Further properties of the present server *)

(** ** What [readFileContent] builds *)

Section reader_facts.
Context {number : Type} `{!JsNumber number}.

Lemma forEach_header_dom (hs : list string) (index : nat)
    (row : list (cell number)) (obj : object number) :
  "__proto__" ∉ hs →
  dom (own (forEach_header hs index row obj)) = list_to_set hs ∪ dom (own obj)
  ∧ inherits (forEach_header hs index row obj) = inherits obj.
Proof.
  revert index obj. induction hs as [|h hs IH]; intros index obj Hproto; simpl.
  - by rewrite (left_id_L ∅ (∪)).
  - apply not_elem_of_cons in Hproto as [Hh Hproto].
    destruct (IH (S index)
      (assign obj h match at_index row index with
                    | Scalar v => v
                    | DateCell d => VStr (formatDate d)
                    end) Hproto) as [-> ->].
    unfold assign. rewrite (bool_decide_eq_false_2 (h = "__proto__")) by done.
    simpl. rewrite dom_insert_L.
    by rewrite (assoc_L (∪)), (comm_L (∪) (list_to_set hs) {[h]}).
Qed.

(** The value under a header other than [__proto__] is the cell at the
    header's position in the list of headers; of equal headers the last one
    decides. *)
Lemma forEach_header_last (hs : list string) (index : nat)
    (row : list (cell number)) (obj : object number)
    (k : nat) (h : string) :
  h ≠ "__proto__" →
  hs !! k = Some h →
  (∀ j, k < j → hs !! j ≠ Some h) →
  get (forEach_header hs index row obj) h = stored (at_index row (index + k)).
Proof.
  intros Hh.
  enough (hs !! k = Some h → (∀ j, k < j → hs !! j ≠ Some h) →
          own (forEach_header hs index row obj) !! h
          = Some (stored (at_index row (index + k)))) as Hown.
  { intros Hk Hlast. unfold get. by rewrite (Hown Hk Hlast). }
  revert index obj k. induction hs as [|h0 hs IH]; intros index obj k Hk Hlast.
  - done.
  - destruct k as [|k]; simpl in Hk.
    + injection Hk as ->. simpl. rewrite forEach_header_other.
      * rewrite own_assign_eq, Nat.add_0_r by done. unfold stored.
        by destruct (at_index row index).
      * intros (j & Hj)%list_elem_of_lookup. apply (Hlast (S j)); [lia|done].
    + simpl. rewrite (IH (S index) _ k Hk).
      * by rewrite Nat.add_succ_r.
      * intros j Hj. apply (Hlast (S j)). lia.
Qed.

(** X1.  A workbook with a header row gives as many row objects as it has
    grid rows after the header row; and when no header is [__proto__] every
    row object has exactly the headers as its own keys, however many cells
    the grid row has, and still inherits from [Object.prototype]. *)
Theorem readFileContent_rows_shape (row0 : list (cell number))
    (rest : list (list (cell number))) :
  let c := readFileContent (Workbook (row0 :: rest)) in
  "__proto__" ∉ headers c →
  length (data c) = length rest
  ∧ Forall (λ row : object number,
              dom (own row) = list_to_set (headers c) ∧ inherits row = true)
           (data c).
Proof.
  simpl. intros Hproto. split; [by rewrite length_fmap|].
  apply Forall_fmap, Forall_forall. intros row _; simpl.
  destruct (forEach_header_dom (filter (λ h, h ≠ "") (clean_header <$> row0)) 0 row
              empty_object Hproto) as [-> ->].
  simpl. by rewrite dom_empty_L, (right_id_L ∅ (∪)).
Qed.

(** X2.  In the row built from a grid row, the value under a header other
    than [__proto__] is the cell at the header's position among the headers
    (not the column the header cell stood in), with a [Date] cell formatted;
    where several headers are equal the last position decides, and a grid
    row too short for the position gives [undefined]. *)
Theorem readFileContent_cell (row0 : list (cell number))
    (rest : list (list (cell number))) (n k : nat) (g : list (cell number))
    (h : string) :
  let c := readFileContent (Workbook (row0 :: rest)) in
  h ≠ "__proto__" →
  rest !! n = Some g →
  headers c !! k = Some h →
  (∀ j, k < j → headers c !! j ≠ Some h) →
  ∃ row : object number,
    data c !! n = Some row
    ∧ get row h = stored (at_index g k)
    ∧ (length g ≤ k → get row h = VUndefined)
    ∧ (∀ d, g !! k = Some (DateCell d) → get row h = VStr (formatDate d)).
Proof.
  simpl. intros Hh Hg Hk Hlast.
  eexists. split; [by rewrite list_lookup_fmap, Hg|].
  assert (get (forEach_header (filter (λ h, h ≠ "") (clean_header <$> row0)) 0 g
                 empty_object) h
          = stored (at_index g k)) as Hget.
  { by rewrite (forEach_header_last _ 0 g empty_object k h Hh Hk Hlast). }
  split_and!; [done|..].
  - intros Hshort. rewrite Hget. unfold at_index.
    by rewrite lookup_ge_None_2.
  - intros d Hd. rewrite Hget. unfold at_index. by rewrite Hd.
Qed.

End reader_facts.

(** ** Dates *)

Lemma append_length (a b : string) :
  String.length (a +:+ b) = String.length a + String.length b.
Proof. induction a as [|c a IH]; simpl; [done|]. by rewrite IH. Qed.

Lemma append_inj_suffix (a b x y : string) :
  a +:+ x = b +:+ y → String.length x = String.length y → a = b ∧ x = y.
Proof.
  revert b. induction a as [|c a IH]; intros [|c' b] Heq Hlen; simpl in *.
  - done.
  - apply (f_equal String.length) in Heq.
    rewrite !append_length in Heq. simpl in Heq. lia.
  - apply (f_equal String.length) in Heq.
    rewrite !append_length in Heq. simpl in Heq. lia.
  - injection Heq as -> Heq. destruct (IH b Heq Hlen) as [-> ->]. done.
Qed.

Lemma padStart2_two_digits (z : Z) :
  (0 ≤ z < 100)%Z → String.length (padStart2 (pretty z)) = 2.
Proof.
  intros Hz.
  assert (Forall (λ z, String.length (padStart2 (pretty z)) = 2) (seqZ 0 100))
    as Hall.
  { apply (bool_decide_unpack
             (Forall (λ z, String.length (padStart2 (pretty z)) = 2) (seqZ 0 100))).
    by vm_compute. }
  rewrite Forall_forall in Hall. apply Hall, elem_of_seqZ. lia.
Qed.

Lemma NoDup_fmap_inj_on {X Y : Type} (f : X → Y) (l : list X) (x y : X) :
  NoDup (f <$> l) → x ∈ l → y ∈ l → f x = f y → x = y.
Proof.
  induction l as [|a l IH]; intros Hnd Hx Hy Hf; [by apply elem_of_nil in Hx|].
  rewrite fmap_cons in Hnd. apply NoDup_cons in Hnd as [Ha Hnd].
  apply elem_of_cons in Hx as [->|Hx]; apply elem_of_cons in Hy as [->|Hy].
  - done.
  - destruct Ha. rewrite Hf. by apply list_elem_of_fmap_2.
  - destruct Ha. rewrite <-Hf. by apply list_elem_of_fmap_2.
  - by apply IH.
Qed.

Lemma padStart2_inj (z1 z2 : Z) :
  (0 ≤ z1 < 100)%Z → (0 ≤ z2 < 100)%Z →
  padStart2 (pretty z1) = padStart2 (pretty z2) → z1 = z2.
Proof.
  intros H1 H2.
  apply (NoDup_fmap_inj_on (λ z : Z, padStart2 (pretty z)) (seqZ 0 100)).
  - apply (bool_decide_unpack
             (NoDup ((λ z : Z, padStart2 (pretty z)) <$> seqZ 0 100))).
    by vm_compute.
  - apply elem_of_seqZ. lia.
  - apply elem_of_seqZ. lia.
Qed.

(** X3.  [formatDate] gives the empty string exactly for an invalid date. *)
Theorem formatDate_empty_iff_invalid (date : Date) :
  formatDate date = "" ↔ date_isNaN date = true.
Proof.
  unfold formatDate. destruct (date_isNaN date); [done|]. split; [|done].
  intros Heq. pose proof (Number_toString_nonempty (getFullYear date)) as Hne.
  simpl in Hne. by destruct (pretty (getFullYear date)).
Qed.

(** X4.  On valid dates with a month from 0 to 11 and a day from 1 to 31,
    [formatDate] is injective on the year, month and day: two dates get the
    same text only if they are the same calendar day.  The text is the year
    followed by six characters. *)
Theorem formatDate_inj (d1 d2 : Date) :
  date_isNaN d1 = false → date_isNaN d2 = false →
  (0 ≤ getMonth d1 ≤ 11)%Z → (0 ≤ getMonth d2 ≤ 11)%Z →
  (1 ≤ getDate d1 ≤ 31)%Z → (1 ≤ getDate d2 ≤ 31)%Z →
  String.length (formatDate d1) = String.length (pretty (getFullYear d1)) + 6
  ∧ (formatDate d1 = formatDate d2 →
     getFullYear d1 = getFullYear d2 ∧ getMonth d1 = getMonth d2
     ∧ getDate d1 = getDate d2).
Proof.
  intros Hv1 Hv2 Hm1 Hm2 Hd1 Hd2. unfold formatDate. rewrite Hv1, Hv2.
  pose proof (padStart2_two_digits (getMonth d1 + 1)) as Lm1.
  pose proof (padStart2_two_digits (getMonth d2 + 1)) as Lm2.
  pose proof (padStart2_two_digits (getDate d1)) as Ld1.
  pose proof (padStart2_two_digits (getDate d2)) as Ld2.
  split.
  - rewrite !append_length, Lm1, Ld1 by lia. simpl. lia.
  - intros Heq.
    apply append_inj_suffix in Heq as [Hy Heq].
    2:{ rewrite !append_length, Lm1, Lm2, Ld1, Ld2 by lia. done. }
    change ("-" +:+ ?x) with (String "-" x) in Heq. injection Heq as Heq.
    apply append_inj_suffix in Heq as [Hm Heq].
    2:{ rewrite !append_length, Ld1, Ld2 by lia. done. }
    change ("-" +:+ ?x) with (String "-" x) in Heq. injection Heq as Heq.
    apply (inj pretty) in Hy.
    apply padStart2_inj in Hm; [|lia..]. apply padStart2_inj in Heq; [|lia..].
    split_and!; [done|lia|done].
Qed.

(** ** Text files *)

Lemma split_lines_no_line_feed (s : string) :
  Forall (λ line, "010"%char ∉ String.list_ascii_of_string line) (split_lines s).
Proof.
  enough (Forall (λ line, "010"%char ∉ String.list_ascii_of_string line) (split_lines s)
          ∧ ∀ c, Forall (λ line, "010"%char ∉ String.list_ascii_of_string line)
                   (split_lines (String c s))) as [? _] by done.
  assert (Hempty : "010"%char ∉ String.list_ascii_of_string "") by apply not_elem_of_nil.
  induction s as [|c0 s [IH1 IH2]].
  - split; [by repeat constructor|]. intros c. simpl.
    case_bool_decide as Hc; repeat constructor; try done.
    simpl. by intros [?|?%elem_of_nil]%elem_of_cons.
  - split; [apply IH2|]. intros c.
    change (split_lines (String c (String c0 s))) with
      (if bool_decide (c = "010"%char) then EmptyString :: split_lines (String c0 s)
       else if bool_decide (c = "013"%char) && bool_decide (c0 = "010"%char)
            then EmptyString :: split_lines s
            else match split_lines (String c0 s) with
                 | l :: ls => String c l :: ls
                 | [] => [String c EmptyString]
                 end).
    case_bool_decide as Hc; [by constructor|].
    destruct (_ && _); [by constructor|].
    specialize (IH2 c0). destruct (split_lines (String c0 s)) as [|l ls].
    + repeat constructor. simpl. by intros [?|?%elem_of_nil]%elem_of_cons.
    + apply Forall_cons in IH2 as [Hl Hls]. constructor; [|done].
      simpl. by intros [?|?]%elem_of_cons.
Qed.

Section text_claims.
Context {number : Type} `{!JsNumber number}.

Lemma trim_empty_string : trim "" = "".
Proof. done. Qed.

(** X5.  The lines read from a text file are the pieces between line
    breaks that are not blank, in order: no line is empty or white space
    only, and no line contains a line feed. *)
Theorem text_lines_clean (content : string) :
  data (readFileContent (number := number) (TextFile content))
    `sublist_of` split_lines content
  ∧ Forall (λ line : string,
              trim line ≠ "" ∧ line ≠ ""
              ∧ "010"%char ∉ String.list_ascii_of_string line)
           (data (readFileContent (number := number) (TextFile content))).
Proof.
  simpl. split; [apply sublist_filter|].
  apply Forall_forall. intros line [Hne Hin]%list_elem_of_filter.
  split_and!; [done|by intros ->|].
  pose proof (split_lines_no_line_feed content) as Hall.
  rewrite Forall_forall in Hall. by apply Hall.
Qed.

(** X6.  Two text files are compared by exact lines, whatever column is
    requested: a line of File A is matched exactly when the same line, to
    the character, is a line of File B, and otherwise (File B having lines)
    it is missing. *)
Theorem text_files_compared_by_exact_lines (a b : string)
    (selectedColumn : option string) :
  let A := readFileContent (number := number) (TextFile a) in
  let B := readFileContent (number := number) (TextFile b) in
  ∃ r : response number plain_text,
    cross_check A B selectedColumn = Status200 r
    ∧ comparisonColumn r = "Line Content"
    ∧ ∀ line : string, line ∈ data A →
        (line ∈ matched r ↔ line ∈ data B)
        ∧ (data B ≠ [] → line ∉ data B → line ∈ missing r).
Proof.
  intros A B.
  destruct (matched_iff A B selectedColumn "Line Content")
    as (r & Hr & Hcol & _ & Hmiss & _ & Hiff).
  { apply actualComparisonColumn_plain. by left. }
  exists r. split_and!; [done|done|].
  intros line Hline.
  assert (line ∈ matched r ↔ line ∈ data B) as Hm.
  { etrans; [exact (Hiff line Hline)|]. simpl. split.
    - by intros (_ & line2 & Hin & _ & ->).
    - intros Hin.
      assert (line ≠ "") as Hne.
      { apply list_elem_of_filter in Hline as [Hne _]. by intros ->. }
      rewrite negb_true_iff, bool_decide_eq_false. split; [done|].
      exists line. by rewrite negb_true_iff, bool_decide_eq_false. }
  split; [exact Hm|]. intros HB Hnot. apply (Hmiss line Hline HB).
  intros Hin. by apply Hnot, Hm.
Qed.

End text_claims.

(** ** The headers offered by [POST /get-headers] *)

Section set_facts.
Context {A : Type} `{!EqDecision A}.

(** Filling a [Set] from an array keeps the first occurrence of each element:
    started from [acc], it appends the new elements in order. *)
Lemma fold_Set_add (l acc : list A) :
  fold_left Set_add l acc = acc ++ filter (λ x, x ∉ acc) (Array_from_Set l).
Proof.
  induction l as [|x l IH] using rev_ind.
  - unfold Array_from_Set; simpl. by rewrite filter_nil, app_nil_r.
  - unfold Array_from_Set. rewrite !fold_left_app; simpl.
    fold (Array_from_Set l). rewrite IH.
    unfold Set_add, Set_has.
    destruct (decide (x ∈ Array_from_Set l)) as [Hin|Hin].
    + rewrite (bool_decide_eq_true_2 (x ∈ Array_from_Set l)) by done.
      rewrite bool_decide_eq_true_2; [done|].
      destruct (decide (x ∈ acc)); [apply elem_of_app; by left|].
      apply elem_of_app. right. by apply list_elem_of_filter.
    + rewrite (bool_decide_eq_false_2 (x ∈ Array_from_Set l)) by done.
      rewrite filter_app, filter_cons, filter_nil.
      destruct (decide (x ∉ acc)) as [Hacc|Hacc].
      * rewrite bool_decide_eq_false_2; [by rewrite app_assoc|].
        intros [?|[_ ?]%list_elem_of_filter]%elem_of_app; done.
      * rewrite app_nil_r. rewrite bool_decide_eq_true_2; [done|].
        apply elem_of_app. left. by destruct (decide (x ∈ acc)).
Qed.

Lemma elem_of_Array_from_Set (l : list A) (x : A) :
  x ∈ Array_from_Set l ↔ x ∈ l.
Proof.
  induction l as [|y l IH] using rev_ind; [done|].
  unfold Array_from_Set. rewrite fold_left_app; simpl. fold (Array_from_Set l).
  rewrite elem_of_Set_add, IH, elem_of_app, list_elem_of_singleton. done.
Qed.

Lemma NoDup_Array_from_Set (l : list A) : NoDup (Array_from_Set l).
Proof.
  induction l as [|y l IH] using rev_ind; [constructor|].
  unfold Array_from_Set. rewrite fold_left_app; simpl. fold (Array_from_Set l).
  unfold Set_add, Set_has. case_bool_decide as Hin; [done|].
  apply NoDup_app. split_and!; [done| |apply NoDup_singleton].
  intros x Hx ->%list_elem_of_singleton. done.
Qed.

Lemma Array_from_Set_app (l1 l2 : list A) :
  Array_from_Set (l1 ++ l2)
  = Array_from_Set l1 ++ filter (λ x, x ∉ l1) (Array_from_Set l2).
Proof.
  unfold Array_from_Set at 1. rewrite fold_left_app. fold (Array_from_Set l1).
  rewrite fold_Set_add. f_equal. apply filter_ext_in.
  intros x _. by rewrite elem_of_Array_from_Set.
Qed.

End set_facts.

Section get_headers_claims.
Context {number : Type} `{!JsNumber number}.
Implicit Types (A B : fileContent number).

Lemma readFileContent_headers_kept (file : upload number) :
  Forall (λ h, h ≠ "" ∧ trim h ≠ "") (headers (readFileContent file)).
Proof.
  destruct file as [[|row0 rest]|content]; simpl; try constructor.
  apply Forall_forall.
  intros h [Hne (c & -> & _)%list_elem_of_fmap]%list_elem_of_filter.
  by rewrite clean_header_trimmed.
Qed.

Lemma readFileContent_workbook_type (rawData : list (list (cell number))) :
  type (readFileContent (Workbook rawData)) = structured.
Proof. by destruct rawData. Qed.

Lemma filter_all {X : Type} (P : X → Prop) `{!∀ x, Decision (P x)} (l : list X) :
  Forall P l → filter P l = l.
Proof.
  induction 1 as [|x l Hx _ IH]; [done|]. by rewrite filter_cons_True, IH.
Qed.

(** X7.  The list of headers offered is never empty and never repeats a
    name; with a plain text file on either side it is the single entry
    "Line Content". *)
Theorem uniqueHeaders_offer A B :
  uniqueHeaders A B ≠ []
  ∧ NoDup (uniqueHeaders A B)
  ∧ (type A = plain_text ∨ type B = plain_text →
     uniqueHeaders A B = ["Line Content"]).
Proof.
  unfold uniqueHeaders.
  destruct (bool_decide (type A = structured) && bool_decide (type B = structured))
    eqn:Hboth.
  - rewrite andb_true_r.
    apply andb_true_iff in Hboth as [HA%bool_decide_eq_true HB%bool_decide_eq_true].
    split_and!.
    + destruct (bool_decide (length _ = 0)) eqn:Hlen; [discriminate|].
      apply bool_decide_eq_false in Hlen. intros Hnil. by rewrite Hnil in Hlen.
    + destruct (bool_decide (length _ = 0)); [apply NoDup_singleton|].
      apply NoDup_filter, NoDup_Array_from_Set.
    + intros [?|?]; congruence.
  - rewrite andb_false_r. split_and!; [discriminate|apply NoDup_singleton|done].
Qed.

(** For two workbooks the filter of [uniqueHeaders] removes nothing. *)
Lemma uniqueHeaders_workbooks (rawA rawB : list (list (cell number))) :
  let A := readFileContent (Workbook rawA) in
  let B := readFileContent (Workbook rawB) in
  uniqueHeaders A B
  = if bool_decide (headers A ++ headers B = [])
    then ["No Headers Found"]
    else Array_from_Set (headers A ++ headers B).
Proof.
  intros A B.
  assert (filter (λ h, h ≠ "" ∧ trim h ≠ "") (Array_from_Set (headers A ++ headers B))
          = Array_from_Set (headers A ++ headers B)) as Hkept.
  { apply filter_all, Forall_forall. intros h [Hh|Hh]%elem_of_Array_from_Set%elem_of_app.
    - pose proof (readFileContent_headers_kept (Workbook rawA)) as Hall.
      rewrite Forall_forall in Hall. by apply Hall.
    - pose proof (readFileContent_headers_kept (Workbook rawB)) as Hall.
      rewrite Forall_forall in Hall. by apply Hall. }
  unfold uniqueHeaders. subst A B. rewrite !readFileContent_workbook_type.
  rewrite (bool_decide_eq_true_2 (structured = structured)) by done.
  rewrite !andb_true_r. cbv iota. rewrite Hkept.
  destruct (decide (headers (readFileContent (Workbook rawA))
                    ++ headers (readFileContent (Workbook rawB)) = [])) as [Hnil|Hnil].
  - rewrite Hnil. reflexivity.
  - rewrite (bool_decide_eq_false_2 (_ ++ _ = [])) by done.
    rewrite bool_decide_eq_false_2; [done|].
    rewrite length_zero_nil. intros Hd. apply Hnil.
    apply elem_of_nil_inv. intros h Hh.
    apply elem_of_Array_from_Set in Hh. rewrite Hd in Hh.
    by apply elem_of_nil in Hh.
Qed.

(** X8.  For two workbooks the headers offered are File A's headers
    without repetition, in order, followed by those of File B that File A
    does not have; when neither file has a header the one entry
    "No Headers Found" is offered instead. *)
Theorem uniqueHeaders_of_workbooks (rawA rawB : list (list (cell number))) :
  let A := readFileContent (Workbook rawA) in
  let B := readFileContent (Workbook rawB) in
  (headers A ++ headers B ≠ [] →
     uniqueHeaders A B
     = Array_from_Set (headers A)
       ++ filter (λ h, h ∉ headers A) (Array_from_Set (headers B))
     ∧ ∀ h, h ∈ uniqueHeaders A B ↔ h ∈ headers A ∨ h ∈ headers B)
  ∧ (headers A ++ headers B = [] → uniqueHeaders A B = ["No Headers Found"]).
Proof.
  intros A B. pose proof (uniqueHeaders_workbooks rawA rawB) as Hu.
  cbv zeta in Hu. fold A B in Hu. rewrite Hu. split.
  - intros Hne. rewrite bool_decide_eq_false_2 by done.
    split; [apply Array_from_Set_app|].
    intros h. by rewrite elem_of_Array_from_Set, elem_of_app.
  - intros Hnil. by rewrite bool_decide_eq_true_2.
Qed.

(** X9.  Asking [POST /cross-check] for a header that was offered: for two
    workbooks every header of File A is offered and accepted, every header
    that only File B has is offered and refused with the 400 answer, and
    when neither file has a header the one entry offered, "No Headers
    Found", is refused. *)
Theorem offered_header_accepted_iff_in_A (rawA rawB : list (list (cell number))) :
  let A := readFileContent (Workbook rawA) in
  let B := readFileContent (Workbook rawB) in
  (∀ h, h ∈ headers A →
     h ∈ uniqueHeaders A B ∧ ¬ UnknownComparisonKey (cross_check A B (Some h)))
  ∧ (∀ h, h ∈ headers B → h ∉ headers A →
     h ∈ uniqueHeaders A B ∧ UnknownComparisonKey (cross_check A B (Some h)))
  ∧ (headers A ++ headers B = [] →
     uniqueHeaders A B = ["No Headers Found"]
     ∧ UnknownComparisonKey (cross_check A B (Some "No Headers Found"))).
Proof.
  intros A B.
  assert (∀ h, UnknownComparisonKey (cross_check A B (Some h)) ↔ h ∉ headers A)
    as Hguard.
  { intros h.
    destruct (actualComparisonColumn A B (Some h)) as [c|] eqn:Hkey.
    - destruct (matched_iff A B (Some h) c Hkey) as (r & Hr & _).
      rewrite Hr; simpl. split; [done|]. intros Hnot.
      assert (is_Some (actualComparisonColumn A B (Some h))) as Hsome by (by eexists).
      apply actualComparisonColumn_is_Some in Hsome as [HA|[HB|(c' & [= <-] & Hc)]].
      + subst A. by rewrite readFileContent_workbook_type in HA.
      + subst B. by rewrite readFileContent_workbook_type in HB.
      + done.
    - rewrite cross_check_unknown_key by done; simpl. split; [|done].
      intros _ Hin.
      assert (is_Some (actualComparisonColumn A B (Some h))) as [? Hsome].
      { apply actualComparisonColumn_is_Some. right; right. by exists h. }
      congruence. }
  assert (∀ h, h ∈ headers A ++ headers B → h ∈ uniqueHeaders A B) as Hoffer.
  { intros h Hh. pose proof (uniqueHeaders_workbooks rawA rawB) as Hu.
    cbv zeta in Hu. fold A B in Hu. rewrite Hu, bool_decide_eq_false_2.
    - by apply elem_of_Array_from_Set.
    - intros Hnil. rewrite Hnil in Hh. by apply elem_of_nil in Hh. }
  split_and!.
  - intros h Hh. split; [apply Hoffer, elem_of_app; by left|].
    rewrite Hguard. by intros Hnot.
  - intros h HhB HhA. split; [apply Hoffer, elem_of_app; by right|].
    by apply Hguard.
  - intros Hnil. split.
    + pose proof (uniqueHeaders_workbooks rawA rawB) as Hu.
      cbv zeta in Hu. fold A B in Hu. by rewrite Hu, bool_decide_eq_true_2.
    + apply Hguard. apply app_eq_nil in Hnil as [-> _]. apply not_elem_of_nil.
Qed.

End get_headers_claims.

(** ** More on the [POST /cross-check] answer *)

Section answer_claims.
Context {number : Type} `{!JsNumber number}.
Implicit Types (A B : fileContent number) (selectedColumn : option string).

Lemma saved_None {X : Type} (l : list X) : saved l = None ↔ length l = 0.
Proof.
  unfold saved. case_bool_decide as Hlen; split; try done; lia.
Qed.

(** X10.  In every 200 answer the fields agree with each other: the counts
    are the lengths of the two partitions, a CSV file is written for a
    partition exactly when its count is not zero, and the sample
    [missingContents] is the first ten rows of [missing] (all of them when
    there are at most ten). *)
Theorem answer_fields_agree A B selectedColumn (r : response number (type A)) :
  cross_check A B selectedColumn = Status200 r →
  foundCount r = length (matched r)
  ∧ missingCount r = length (missing r)
  ∧ (matchedCsv r = None ↔ foundCount r = 0)
  ∧ (missingCsv r = None ↔ missingCount r = 0)
  ∧ missingContents r = take 10 (missing r)
  ∧ length (missingContents r) = missingCount r `min` 10.
Proof.
  intros Hr.
  destruct (actualComparisonColumn A B selectedColumn) as [column|] eqn:Hkey.
  2:{ by rewrite cross_check_unknown_key in Hr. }
  destruct (decide (data A = [])) as [HA|HA].
  { rewrite (cross_check_empty_A _ _ _ column) in Hr by done.
    by injection Hr as <-. }
  destruct (decide (data B = [])) as [HB|HB].
  { rewrite (cross_check_empty_B _ _ _ column) in Hr by done.
    by injection Hr as <-. }
  rewrite (cross_check_compared _ _ _ column) in Hr by done.
  injection Hr as <-. unfold matched, missing; simpl.
  rewrite !default_saved, !saved_None, length_take. split_and!; try done. lia.
Qed.

Lemma compare_loop_same_set t column (set set' : list string)
    (data1 : list (item number t)) :
  (∀ s, s ∈ set ↔ s ∈ set') →
  compare_loop t column set data1 = compare_loop t column set' data1.
Proof.
  intros Hsame. rewrite !compare_loop_filter.
  assert (∀ i, in_file2 t column set i = true ↔ in_file2 t column set' i = true)
    as Hin.
  { intros i. by rewrite !in_file2_true, Hsame. }
  f_equal; apply filter_ext_in; intros i _; by rewrite Hin.
Qed.

(** X11.  The answer depends on File B only through its type and the set of
    its rows: the order of the rows, repeated rows, and File B's headers
    change nothing. *)
Theorem answer_depends_on_rows_of_B A (tB : fileType)
    (rows rows' : list (item number tB)) (hs hs' : list string)
    (first first' : option string) selectedColumn :
  (∀ x, x ∈ rows ↔ x ∈ rows') →
  cross_check A {| type := tB; data := rows; headers := hs;
                   firstColumnHeader := first |} selectedColumn
  = cross_check A {| type := tB; data := rows'; headers := hs';
                     firstColumnHeader := first' |} selectedColumn.
Proof.
  intros Hsame. unfold cross_check, actualComparisonColumn; simpl.
  destruct (match type A with
            | structured => _
            | plain_text => _
            end) as [column|]; [|done].
  case_bool_decide; [done|].
  assert (rows = [] ↔ rows' = []) as Hnil.
  { split; intros ->; apply elem_of_nil_inv; intros x Hx; apply Hsame in Hx;
      by apply elem_of_nil in Hx. }
  rewrite <-!length_zero_nil in Hnil.
  destruct (decide (length rows = 0)) as [Hl|Hl].
  - rewrite !bool_decide_eq_true_2; [done|by apply Hnil|done].
  - rewrite !bool_decide_eq_false_2; [|by rewrite <-Hnil|done].
    rewrite (compare_loop_same_set _ _ (values2Set tB column rows)
               (values2Set tB column rows')); [done|].
    intros s. rewrite !elem_of_values2Set.
    split; intros (x & Hx & ?); exists x; (split; [by apply Hsame|done]).
Qed.

Lemma filter_sublist_mono {X : Type} (P Q : X → Prop)
    `{!∀ x, Decision (P x)} `{!∀ x, Decision (Q x)} (l : list X) :
  (∀ x, x ∈ l → P x → Q x) → filter P l `sublist_of` filter Q l.
Proof.
  induction l as [|x l IH]; intros Himp; [done|].
  assert (filter P l `sublist_of` filter Q l) as Hrec.
  { apply IH. intros y Hy. apply Himp, elem_of_cons. by right. }
  rewrite !filter_cons. destruct (decide (P x)) as [HP|HP].
  - rewrite decide_True by (apply Himp; [apply list_elem_of_here|done]).
    by apply sublist_skip.
  - destruct (decide (Q x)); [by apply sublist_cons|done].
Qed.

(** X12.  Adding rows to File B never takes a row out of [matched]; and as
    long as File B was not empty before, every row still missing was missing
    before. *)
Theorem more_rows_in_B_more_matched A (tB : fileType)
    (rows rows' : list (item number tB)) (hs hs' : list string)
    (first first' : option string) selectedColumn :
  let B := {| type := tB; data := rows; headers := hs;
              firstColumnHeader := first |} in
  let B' := {| type := tB; data := rows'; headers := hs';
               firstColumnHeader := first' |} in
  (∀ x, x ∈ rows → x ∈ rows') →
  is_Some (actualComparisonColumn A B selectedColumn) →
  ∃ r r' : response number (type A),
    cross_check A B selectedColumn = Status200 r
    ∧ cross_check A B' selectedColumn = Status200 r'
    ∧ matched r `sublist_of` matched r'
    ∧ (rows ≠ [] → missing r' `sublist_of` missing r).
Proof.
  intros B B' Hsub [column Hkey].
  assert (actualComparisonColumn A B' selectedColumn = Some column) as Hkey'
    by exact Hkey.
  destruct (decide (data A = [])) as [HA|HA].
  { do 2 eexists.
    split; [by apply (cross_check_empty_A A B selectedColumn column)|].
    split; [by apply (cross_check_empty_A A B' selectedColumn column)|].
    split; [done|]. intros _. done. }
  destruct (decide (rows = [])) as [HB|HB].
  { destruct (matched_iff A B' selectedColumn column Hkey') as (r' & Hr' & _).
    eexists. exists r'.
    split; [by apply (cross_check_empty_B A B selectedColumn column)|].
    split; [done|]. split; [apply sublist_nil_l|done]. }
  assert (rows' ≠ []) as HB'.
  { destruct rows as [|x ?]; [done|]. intros Hnil.
    specialize (Hsub x (list_elem_of_here _ _)). rewrite Hnil in Hsub.
    by apply elem_of_nil in Hsub. }
  do 2 eexists.
  split; [by apply (cross_check_compared A B selectedColumn column)|].
  split; [by apply (cross_check_compared A B' selectedColumn column)|].
  unfold matched, missing; simpl. rewrite !default_saved.
  assert (∀ i, in_file2 (type A) column (values2Set tB column rows) i = true →
               in_file2 (type A) column (values2Set tB column rows') i = true) as Hmono.
  { intros i. rewrite !in_file2_true, !elem_of_values2Set.
    intros [Hc (x & Hx & ?)]. split; [done|]. exists x. split; [by apply Hsub|done]. }
  split; [|intros _]; apply filter_sublist_mono; intros i _; [apply Hmono|].
  intros Hno Hyes. by apply Hno, Hmono.
Qed.

(** X13.  A file cross-checked against itself: with the column resolved,
    the matched rows are exactly those whose key value has content, and the
    missing rows exactly those whose key value is absent, [null] or empty. *)
Theorem self_check_splits_by_content A selectedColumn column :
  actualComparisonColumn A A selectedColumn = Some column →
  ∃ r : response number (type A),
    cross_check A A selectedColumn = Status200 r
    ∧ matched r = filter (λ i, has_content (value1 (type A) column i) = true) (data A)
    ∧ missing r = filter (λ i, has_content (value1 (type A) column i) ≠ true) (data A).
Proof.
  intros Hkey.
  destruct (decide (data A = [])) as [HA|HA].
  { eexists. split; [by apply (cross_check_empty_A A A selectedColumn column)|].
    by rewrite HA. }
  eexists. split; [by apply (cross_check_compared A A selectedColumn column)|].
  unfold matched, missing; simpl. rewrite !default_saved.
  assert (∀ i, i ∈ data A →
            (in_file2 (type A) column (values2Set (type A) column (data A)) i = true
             ↔ has_content (value1 (type A) column i) = true)) as Hin.
  { intros i Hi. rewrite in_file2_true, elem_of_values2Set. split; [by intros [? _]|].
    intros Hc. split; [done|]. by exists i. }
  split; apply filter_ext_in; intros i Hi; by rewrite (Hin i Hi).
Qed.

Lemma forEach_add_NoDup_length {X Y : Type} `{!EqDecision Y}
    (f : X → property number) (g : X → Y) (data2 : list X) (acc : list Y) :
  NoDup acc →
  NoDup (fold_left (λ vs x, if has_content (f x) then Set_add vs (g x) else vs)
           data2 acc)
  ∧ length (fold_left (λ vs x, if has_content (f x) then Set_add vs (g x) else vs)
              data2 acc) ≤ length acc + length data2.
Proof.
  revert acc. induction data2 as [|x data2 IH]; intros acc Hnd; simpl.
  - split; [done|lia].
  - assert (NoDup (Set_add acc (g x)) ∧ length (Set_add acc (g x)) ≤ S (length acc))
      as [Hnd' Hlen'].
    { unfold Set_add, Set_has. case_bool_decide as Hin; [split; [done|lia]|].
      split; [|rewrite length_app; simpl; lia].
      apply NoDup_app. split_and!; [done| |apply NoDup_singleton].
      by intros y Hy ->%list_elem_of_singleton. }
    destruct (has_content (f x)).
    + destruct (IH _ Hnd') as [? ?]. split; [done|lia].
    + destruct (IH _ Hnd) as [? ?]. split; [done|lia].
Qed.

(** X14.  The lookup set holds no value twice and at most one value per row
    of File B. *)
Theorem values2Set_NoDup (t : fileType) (column : string)
    (data2 : list (item number t)) :
  NoDup (values2Set t column data2)
  ∧ length (values2Set t column data2) ≤ length data2.
Proof.
  destruct t; simpl.
  - apply (forEach_add_NoDup_length (λ row, get row column)
             (λ row, String_ (get row column)) data2 []). constructor.
  - apply (forEach_add_NoDup_length (λ line, Own (VStr line) : property number)
             (λ line, String_ (Own (VStr line) : property number)) data2 []). constructor.
Qed.

End answer_claims.

(** ** Columns that every object inherits *)

Section inherited_claims.
Context {number : Type} `{!JsNumber number}.

Lemma NoDup_only {X : Type} (l : list X) (s : X) :
  NoDup l → (∀ x, x ∈ l ↔ x = s) → l = [s].
Proof.
  intros Hnd Hl. destruct l as [|a l].
  - assert (s ∈ @nil X) as Hs by (by apply Hl). by apply elem_of_nil in Hs.
  - assert (a = s) as -> by (apply Hl, list_elem_of_here).
    apply NoDup_cons in Hnd as [Hnotin _]. f_equal.
    apply elem_of_nil_inv. intros y Hy.
    assert (y = s) as -> by (apply Hl, elem_of_cons; by right). done.
Qed.

(** In a sheet without a header [__proto__], a row asked for a member of
    [Object.prototype] that is not a header answers with that member. *)
Lemma readFileContent_rows_inherit (rawData : list (list (cell number)))
    (column : string) (row : item number (type (readFileContent (Workbook rawData)))) :
  row ∈ data (readFileContent (Workbook rawData)) →
  column ∈ Object_prototype_members →
  column ∉ headers (readFileContent (Workbook rawData)) →
  "__proto__" ∉ headers (readFileContent (Workbook rawData)) →
  value1 _ column row = Inherited column.
Proof.
  destruct rawData as [|row0 rest]; simpl.
  - by intros ?%elem_of_nil.
  - intros (g & -> & _)%list_elem_of_fmap Hmember Hcolumn Hproto. unfold get.
    rewrite forEach_header_other by done.
    destruct (forEach_header_dom (filter (λ h, h ≠ "") (clean_header <$> row0)) 0 g
                empty_object Hproto) as [_ ->].
    simpl. by rewrite bool_decide_eq_true_2.
Qed.

(** X22.  File B a workbook with a data row and no header [__proto__], and
    a requested column that File A has, File B lacks and every object
    inherits from [Object.prototype] ([constructor], [toString], ...): each
    row of File B answers with the inherited member, so the lookup set is
    the one string that [String] gives for it, and a row of File A is
    matched exactly when it holds that string under the column. *)
Theorem inherited_member_enters_lookup_set
    (rowsA : list (object number)) (headersA : list string)
    (firstA : option string) (row0 g : list (cell number))
    (rest : list (list (cell number))) (column : string) :
  let A := structuredContent rowsA headersA firstA in
  let B := readFileContent (Workbook (row0 :: g :: rest)) in
  column ∈ Object_prototype_members →
  column ∈ headersA → column ∉ headers B → "__proto__" ∉ headers B →
  values2Set structured column (data B) = [inherited_String column]
  ∧ ∃ r : response number structured,
      cross_check A B (Some column) = Status200 r
      ∧ ∀ rowA, rowA ∈ rowsA →
          (rowA ∈ matched r ↔
           has_content (get rowA column) = true
           ∧ String_ (get rowA column) = inherited_String column).
Proof.
  intros A B Hmember HcA HcB Hproto.
  assert (∀ row : object number, row ∈ data B →
            get row column = Inherited column) as Hrows.
  { intros row Hrow.
    exact (readFileContent_rows_inherit (row0 :: g :: rest) column row Hrow
             Hmember HcB Hproto). }
  assert (∃ rowB : object number, rowB ∈ data B) as [rowB HrowB].
  { eexists. apply list_elem_of_here. }
  split.
  - apply NoDup_only.
    + apply (forEach_add_NoDup_length (λ row, get row column)
               (λ row, String_ (get row column)) (data B) []). constructor.
    + intros s. rewrite (elem_of_values2Set structured). split.
      * intros (row & Hrow & _ & <-). simpl. by rewrite (Hrows row Hrow).
      * intros ->. exists rowB. simpl. by rewrite (Hrows rowB HrowB).
  - destruct (matched_iff A B (Some column) column)
      as (r & Hr & _ & _ & _ & _ & Hiff).
    { unfold actualComparisonColumn; simpl. by rewrite bool_decide_eq_true_2. }
    exists r. split; [exact Hr|]. intros rowA HrowA.
    etrans; [exact (Hiff rowA HrowA)|]. simpl. split.
    + intros (Hc & row & Hrow & _ & Hs). split; [done|].
      by rewrite <-Hs, (Hrows row Hrow).
    + intros (Hc & Hs). split; [done|]. exists rowB.
      rewrite (Hrows rowB HrowB). by split_and!.
Qed.

End inherited_claims.

(** ** The upload filter *)

Lemma starts_with_spec (p s : string) :
  starts_with p s = true ↔ ∃ post, s = p +:+ post.
Proof.
  revert s. induction p as [|a p IH]; intros s; simpl.
  - split; [|done]. intros _. by exists s.
  - destruct s as [|b s].
    + split; [done|]. by intros [post [=]].
    + rewrite andb_true_iff, bool_decide_eq_true, IH. split.
      * intros [-> [post ->]]. by exists post.
      * intros [post [= -> ->]]. split; [done|]. by exists post.
Qed.

Lemma test_alternatives_spec (alternatives : list string) (s : string) :
  test_alternatives alternatives s = true ↔
  ∃ p pre post, p ∈ alternatives ∧ s = pre +:+ p +:+ post.
Proof.
  assert (∀ s, existsb (λ p, starts_with p s) alternatives = true ↔
               ∃ p post, p ∈ alternatives ∧ s = p +:+ post) as Hhere.
  { intros s0. rewrite existsb_exists. split.
    - intros (p & Hp%list_elem_of_In & [post ->]%starts_with_spec). by exists p, post.
    - intros (p & post & Hp & ->). exists p. split; [by apply list_elem_of_In|].
      apply starts_with_spec. by exists post. }
  split.
  - induction s as [|c s IH]; simpl; rewrite orb_true_iff, Hhere.
    + intros [(p & post & Hp & Hs)|?]; [|done]. by exists p, "", post.
    + intros [(p & post & Hp & Hs)|Hrec]; [by exists p, "", post|].
      destruct (IH Hrec) as (p & pre & post & Hp & ->).
      by exists p, (String c pre), post.
  - intros (p & pre & post & Hp & ->).
    induction pre as [|c pre IH]; simpl.
    + destruct (p +:+ post) eqn:Hs; simpl; rewrite orb_true_iff; left;
        apply Hhere; exists p, post; by rewrite Hs.
    + rewrite orb_true_iff. by right.
Qed.

(** X15.  The upload filter accepts an extension exactly when it contains
    "xls", "txt" or "csv" somewhere; so it accepts every extension that
    [readFileContent] reads as a workbook, and ".txt". *)
Theorem fileFilter_accepts (ext : string) :
  (fileFilter ext = true ↔
   ∃ pre post, ext = pre +:+ "xls" +:+ post ∨ ext = pre +:+ "txt" +:+ post
               ∨ ext = pre +:+ "csv" +:+ post)
  ∧ (isStructured ext = true ∨ ext = ".txt" → fileFilter ext = true).
Proof.
  assert (fileFilter ext = true ↔
    ∃ pre post, ext = pre +:+ "xls" +:+ post ∨ ext = pre +:+ "txt" +:+ post
                ∨ ext = pre +:+ "csv" +:+ post) as Hspec.
  { unfold fileFilter. rewrite test_alternatives_spec. split.
    - intros (p & pre & post & Hp & ->).
      repeat (apply elem_of_cons in Hp as [->|Hp]).
      + exists pre, ("x" +:+ post). by left.
      + exists pre, post. by left.
      + exists pre, post. right. by left.
      + exists pre, post. right. by right.
      + by apply elem_of_nil in Hp.
    - intros (pre & post & [->|[->| ->]]).
      + exists "xls", pre, post. split; [|done]. apply elem_of_cons. right.
        apply list_elem_of_here.
      + exists "txt", pre, post. split; [|done]. do 2 (apply elem_of_cons; right).
        apply list_elem_of_here.
      + exists "csv", pre, post. split; [|done]. do 3 (apply elem_of_cons; right).
        apply list_elem_of_here. }
  split; [exact Hspec|].
  unfold isStructured. rewrite !orb_true_iff, !bool_decide_eq_true.
  intros [[[->| ->]| ->]| ->]; reflexivity.
Qed.

(** ** The answer in terms of the two grids *)

Section grid_claims.
Context {number : Type} `{!JsNumber number}.

Lemma length_filter_fmap {X Y : Type} (f : X → Y) (P : Y → Prop) (Q : X → Prop)
    `{!∀ y, Decision (P y)} `{!∀ x, Decision (Q x)} (l : list X) :
  (∀ x, x ∈ l → (P (f x) ↔ Q x)) →
  length (filter P (f <$> l)) = length (filter Q l).
Proof.
  induction l as [|x l IH]; intros Hext; [done|].
  rewrite fmap_cons, !filter_cons.
  pose proof (Hext x (list_elem_of_here x l)) as Hx.
  assert (length (filter P (f <$> l)) = length (filter Q l)) as Hrec.
  { apply IH. intros y Hy. apply Hext, elem_of_cons. by right. }
  destruct (decide (P (f x))), (decide (Q x)); simpl; tauto || by rewrite ?Hrec.
Qed.

(** X16.  For two workbooks with data rows and a requested header, other
    than [__proto__], that is the [k]-th header of File A and the [j]-th of
    File B (the last such positions), the counts are counts of grid rows: a grid row of File A is
    found exactly when its [k]-th cell has content and prints like the
    [j]-th cell, with content, of some grid row of File B; all other grid
    rows of File A are missing. *)
Theorem counts_of_grid_rows (rowA0 rowB0 gA gB : list (cell number))
    (restA restB : list (list (cell number))) (h : string) (k j : nat) :
  let A := readFileContent (Workbook (rowA0 :: gA :: restA)) in
  let B := readFileContent (Workbook (rowB0 :: gB :: restB)) in
  h ≠ "__proto__" →
  headers A !! k = Some h → (∀ i, k < i → headers A !! i ≠ Some h) →
  headers B !! j = Some h → (∀ i, j < i → headers B !! i ≠ Some h) →
  ∃ r : response number structured,
    cross_check A B (Some h) = Status200 r
    ∧ foundCount r
      = length (filter
          (λ g, has_content (stored (at_index g k)) = true
                ∧ Exists (λ g', has_content (stored (at_index g' j)) = true
                                ∧ String_ (stored (at_index g' j))
                                  = String_ (stored (at_index g k)))
                         (gB :: restB))
          (gA :: restA))
    ∧ foundCount r + missingCount r = S (length restA).
Proof.
  intros A B Hh HkA HlastA HkB HlastB.
  assert (actualComparisonColumn A B (Some h) = Some h) as Hkey.
  { unfold actualComparisonColumn; simpl. rewrite bool_decide_eq_true_2; [done|].
    by eapply list_elem_of_lookup_2. }
  assert (data A ≠ []) as HA by discriminate.
  assert (data B ≠ []) as HB by discriminate.
  pose proof (cross_check_compared A B (Some h) h Hkey HA HB) as Hr.
  cbv zeta in Hr. eexists. split; [exact Hr|].
  cbv beta iota delta [foundCount missingCount].
  set (hsA := headers A) in *. set (hsB := headers B) in *.
  set (buildA := λ row : list (cell number), forEach_header hsA 0 row empty_object).
  set (buildB := λ row : list (cell number), forEach_header hsB 0 row empty_object).
  change (data A) with (buildA <$> gA :: restA).
  change (data B) with (buildB <$> gB :: restB).
  change (type A) with structured. change (type B) with structured.
  assert (∀ g, get (buildA g) h = stored (at_index g k)) as HgetA.
  { intros g. unfold buildA.
    by rewrite (forEach_header_last hsA 0 g empty_object k h Hh HkA HlastA). }
  assert (∀ g, get (buildB g) h = stored (at_index g j)) as HgetB.
  { intros g. unfold buildB.
    by rewrite (forEach_header_last hsB 0 g empty_object j h Hh HkB HlastB). }
  split.
  - apply length_filter_fmap. intros g _.
    rewrite (in_file2_true structured), (elem_of_values2Set structured).
    change (value1 structured h (buildA g)) with (get (buildA g) h).
    rewrite HgetA, Exists_exists. split.
    + intros [Hc (row & (g' & -> & Hg')%list_elem_of_fmap & Hc' & Hs)].
      change (value1 structured h (buildB g')) with (get (buildB g') h) in Hc', Hs.
      rewrite HgetB in Hc', Hs. split; [done|]. by exists g'.
    + intros [Hc (g' & Hg' & Hc' & Hs)]. split; [done|].
      exists (buildB g').
      change (value1 structured h (buildB g')) with (get (buildB g') h).
      rewrite HgetB. split; [|done]. by apply list_elem_of_fmap_2.
  - rewrite <-length_app.
    replace (S (length restA)) with (length (buildA <$> gA :: restA))
      by (by rewrite length_fmap).
    apply Permutation_length, filter_app_complement.
Qed.

End grid_claims.

(** * Properties of the earlier server *)

Section historical_server_claims.
Context {number : Type} `{!JsNumber number}.

(** X17.  The earlier handler looks at the rows before it looks at the key:
    with File A or File B empty it answers 200 with empty partitions and
    zero counts, whatever the key; it answers 400 exactly when both files
    have rows and File A's key (its first header cell, or [null]) is falsy.
    A text file as File A is never refused. *)
Theorem historical_refusal (A B : HistoricalServer.fileContent number) :
  ((∃ msg, HistoricalServer.cross_check A B = HistoricalServer.Status400 msg) ↔
   HistoricalServer.data A ≠ [] ∧ HistoricalServer.data B ≠ []
   ∧ HistoricalServer.falsy (HistoricalServer.comparisonKey A) = true)
  ∧ (HistoricalServer.data A = [] ∨ HistoricalServer.data B = [] →
     ∃ r, HistoricalServer.cross_check A B = HistoricalServer.Status200 r
       ∧ HistoricalServer.matched r = [] ∧ HistoricalServer.missing r = []
       ∧ HistoricalServer.foundCount r = 0 ∧ HistoricalServer.missingCount r = 0
       ∧ HistoricalServer.totalFile1Rows r = None)
  ∧ (∀ content,
       A = HistoricalServer.readFileContent (HistoricalServer.TextFile content) →
       ¬ ∃ msg, HistoricalServer.cross_check A B = HistoricalServer.Status400 msg).
Proof.
  assert ((∃ msg, HistoricalServer.cross_check A B = HistoricalServer.Status400 msg) ↔
    HistoricalServer.data A ≠ [] ∧ HistoricalServer.data B ≠ []
    ∧ HistoricalServer.falsy (HistoricalServer.comparisonKey A) = true) as Hiff.
  { unfold HistoricalServer.cross_check.
    case_bool_decide as HA; [|case_bool_decide as HB].
    - apply length_zero_nil in HA. split; [by intros [? ?]|]. by intros [? _].
    - apply length_zero_nil in HB. split; [by intros [? ?]|]. by intros (_ & ? & _).
    - assert (HistoricalServer.data A ≠ []) by (intros E; apply HA; by rewrite E).
      assert (HistoricalServer.data B ≠ []) by (intros E; apply HB; by rewrite E).
      destruct (HistoricalServer.falsy _).
      + split; [done|]. intros _. by eexists.
      + destruct (Historical.compare_loop _ _ _ _).
        split; [by intros [? ?]|]. by intros (_ & _ & ?). }
  split_and!; [exact Hiff| |].
  - unfold HistoricalServer.cross_check. intros [HA|HB].
    + rewrite bool_decide_eq_true_2 by (by apply length_zero_nil). by eexists.
    + case_bool_decide; [by eexists|].
      rewrite bool_decide_eq_true_2 by (by apply length_zero_nil). by eexists.
  - intros content -> Hrefused. apply Hiff in Hrefused as (_ & _ & Hf). done.
Qed.

(** Header cells that are trimmed, non-empty text. *)
Lemma clean_header_text (h : string) :
  h ≠ "" → trim h = h → clean_header (Scalar (VStr h) : cell number) = h.
Proof.
  intros Hne Htrim. unfold clean_header; simpl.
  by rewrite bool_decide_eq_false_2.
Qed.

Lemma clean_names_headers (names : list string) :
  Forall (λ h, h ≠ "" ∧ trim h = h) names →
  filter (λ h, h ≠ "") (clean_header <$> (Scalar ∘ VStr <$> names : list (cell number)))
  = names.
Proof.
  induction 1 as [|h names [Hne Htrim] _ IH]; [done|].
  rewrite !fmap_cons. simpl. rewrite clean_header_text by done.
  by rewrite filter_cons_True, IH.
Qed.

Lemma historical_forEach_header_text (names : list string) (index : nat)
    (row : list (cell number)) (obj : object number) :
  HistoricalServer.forEach_header (Scalar ∘ VStr <$> names) index row obj
  = forEach_header names index row obj.
Proof.
  revert index obj. induction names as [|h names IH]; intros index obj; [done|].
  rewrite fmap_cons. simpl. by rewrite IH.
Qed.

(** X18.  On a sheet of text cells, where [sheet_to_json] gives the earlier
    reader and the present reader the same grid, and whose header cells are
    trimmed, non-empty text, the earlier reader builds the same rows as the
    present one, and its key is the present reader's first header (as a text
    cell), or [null] where there is no header. *)
Theorem historical_reader_agrees (names : list string)
    (rest : list (list (cell number))) :
  Forall (λ h, h ≠ "" ∧ trim h = h) names →
  Forall (Forall text_cell) rest →
  let grid := (Scalar ∘ VStr <$> names) :: rest in
  HistoricalServer.data (HistoricalServer.readFileContent (HistoricalServer.Workbook grid))
  = data (readFileContent (Workbook grid))
  ∧ headers (readFileContent (Workbook grid)) = names
  ∧ HistoricalServer.comparisonKey
      (HistoricalServer.readFileContent (HistoricalServer.Workbook grid))
    = default (Scalar VNull)
        (Scalar ∘ VStr <$> firstColumnHeader (readFileContent (Workbook grid))).
Proof.
  intros Hclean _. simpl. rewrite clean_names_headers by done. split_and!.
  - apply list_fmap_ext. intros _ row _. apply historical_forEach_header_text.
  - done.
  - by destruct names.
Qed.

(** A value that, when it has content, is text. *)
Lemma stored_textual (c : cell number) :
  text_cell c → has_content (stored c) = true → ∃ s, stored c = VStr s.
Proof.
  intros [->|[s ->]]; simpl; [done|]. by exists s.
Qed.

Lemma forEach_header_textual (names : list string) (index : nat)
    (g : list (cell number)) (obj : object number) :
  Forall text_cell g →
  (∀ k (v : value number),
     own obj !! k = Some v → has_content v = true → ∃ s, v = VStr s) →
  ∀ k (v : value number),
    own (forEach_header names index g obj) !! k = Some v →
    has_content v = true → ∃ s, v = VStr s.
Proof.
  intros Hg. revert index obj.
  induction names as [|h names IH]; intros index obj Hobj; [done|].
  simpl. apply IH. intros k v. unfold assign.
  destruct (bool_decide (h = "__proto__") && inherits obj).
  - destruct (at_index g index) as [[]|]; apply Hobj.
  - simpl. destruct (decide (h = k)) as [->|Hne].
    + rewrite lookup_insert_eq. intros [= <-].
      change (match at_index g index with
              | Scalar v => v
              | DateCell d => VStr (formatDate d)
              end) with (stored (at_index g index)).
      intros Hc. apply stored_textual; [|done].
      unfold at_index. destruct (g !! index) as [c|] eqn:Hc'; simpl; [|by left].
      rewrite Forall_forall in Hg.
      by apply (Hg c (list_elem_of_lookup_2 _ _ _ Hc')).
    + rewrite lookup_insert_ne by done. apply Hobj.
Qed.

(** The two loops agree when the key values with content are all text. *)
Lemma loops_agree_on_text (tA tB : fileType) (column : string)
    (data1 : list (item number tA)) (data2 : list (item number tB)) :
  (∀ i, i ∈ data1 → has_content (value1 tA column i) = true →
        ∃ s, value1 tA column i = VStr s) →
  (∀ x, x ∈ data2 → has_content (value1 tB column x) = true →
        ∃ s, value1 tB column x = VStr s) →
  Historical.compare_loop tA column (Historical.values2Set tB column data2) data1
  = compare_loop tA column (values2Set tB column data2) data1.
Proof.
  intros H1 H2. rewrite historical_compare_loop_filter, compare_loop_filter.
  assert (∀ i, i ∈ data1 →
    (Historical.in_file2 tA column (Historical.values2Set tB column data2) i = true
     ↔ in_file2 tA column (values2Set tB column data2) i = true)) as Hsame.
  { intros i Hi. rewrite in_file2_true, elem_of_values2Set.
    unfold Historical.in_file2; simpl.
    rewrite andb_true_iff, Set_has_true, historical_elem_of_values2Set.
    change (Historical.value1 tA column i) with (value1 tA column i).
    split.
    - intros (Hc & x & ? & ? & Heq). split; [done|]. exists x. by rewrite Heq.
    - intros (Hc & x & Hx & Hcx & Heq). split; [done|]. exists x.
      split_and!; [done|done|].
      destruct (H1 i Hi Hc) as [s Hs]. destruct (H2 x Hx Hcx) as [s' Hs'].
      rewrite Hs, Hs' in *. simpl in Heq. by rewrite Heq. }
  f_equal; apply filter_ext_in; intros i Hi;
    specialize (Hsame i Hi); tauto.
Qed.

Lemma historical_cross_check_empty_A (A B : HistoricalServer.fileContent number) :
  HistoricalServer.data A = [] →
  HistoricalServer.cross_check A B = HistoricalServer.Status200 {|
    HistoricalServer.message := "File A is empty. Nothing to cross-check.";
    HistoricalServer.foundCount := 0; HistoricalServer.missingCount := 0;
    HistoricalServer.missingContents := [];
    HistoricalServer.totalFile1Rows := None;
    HistoricalServer.matchedCsv := None; HistoricalServer.missingCsv := None;
    HistoricalServer.comparisonColumn := None |}.
Proof.
  intros HA. unfold HistoricalServer.cross_check.
  by rewrite bool_decide_eq_true_2 by (by apply length_zero_nil).
Qed.

Lemma historical_cross_check_empty_B (A B : HistoricalServer.fileContent number) :
  HistoricalServer.data A ≠ [] → HistoricalServer.data B = [] →
  HistoricalServer.cross_check A B = HistoricalServer.Status200 {|
    HistoricalServer.message := "File B is empty. No contents to compare against.";
    HistoricalServer.foundCount := 0; HistoricalServer.missingCount := 0;
    HistoricalServer.missingContents := [];
    HistoricalServer.totalFile1Rows := None;
    HistoricalServer.matchedCsv := None; HistoricalServer.missingCsv := None;
    HistoricalServer.comparisonColumn := None |}.
Proof.
  intros HA HB. unfold HistoricalServer.cross_check.
  rewrite bool_decide_eq_false_2 by (by rewrite length_zero_nil).
  by rewrite bool_decide_eq_true_2 by (by apply length_zero_nil).
Qed.

Lemma historical_cross_check_compared (A B : HistoricalServer.fileContent number) :
  HistoricalServer.data A ≠ [] → HistoricalServer.data B ≠ [] →
  HistoricalServer.falsy (HistoricalServer.comparisonKey A) = false →
  let key := HistoricalServer.property_key (HistoricalServer.comparisonKey A) in
  let set := Historical.values2Set (HistoricalServer.type B) key
               (HistoricalServer.data B) in
  let found := filter (λ i, Historical.in_file2 (HistoricalServer.type A) key set i = true)
                 (HistoricalServer.data A) in
  let miss := filter (λ i, Historical.in_file2 (HistoricalServer.type A) key set i ≠ true)
                (HistoricalServer.data A) in
  HistoricalServer.cross_check A B = HistoricalServer.Status200 {|
    HistoricalServer.message :=
      "Cross-check completed successfully! CSV files generated.";
    HistoricalServer.foundCount := length found;
    HistoricalServer.missingCount := length miss;
    HistoricalServer.missingContents := take 10 miss;
    HistoricalServer.totalFile1Rows := Some (length (HistoricalServer.data A));
    HistoricalServer.matchedCsv := saved found;
    HistoricalServer.missingCsv := saved miss;
    HistoricalServer.comparisonColumn := Some (HistoricalServer.comparisonKey A) |}.
Proof.
  intros HA HB Hkey. unfold HistoricalServer.cross_check.
  rewrite !bool_decide_eq_false_2 by (by rewrite length_zero_nil).
  rewrite Hkey. by rewrite historical_compare_loop_filter.
Qed.

(** X19.  On two sheets of text cells, where [sheet_to_json] gives the
    earlier server and the present server the same grids, whose header cells
    are trimmed, non-empty text and whose first header in File A is not the
    name of a member of [Object.prototype], the earlier server and the
    present server asked for File A's first header give the same matched
    rows, the same missing rows, the same counts and the same sample. *)
Theorem servers_agree_on_text_sheets (first : string) (namesA namesB : list string)
    (restA restB : list (list (cell number))) :
  Forall (λ h, h ≠ "" ∧ trim h = h) (first :: namesA) →
  Forall (λ h, h ≠ "" ∧ trim h = h) namesB →
  first ∉ Object_prototype_members →
  Forall (Forall text_cell) (restA ++ restB) →
  let gridA := (Scalar ∘ VStr <$> first :: namesA) :: restA in
  let gridB := (Scalar ∘ VStr <$> namesB) :: restB in
  ∃ (r : response number structured) (r' : HistoricalServer.response number structured),
    cross_check (readFileContent (Workbook gridA)) (readFileContent (Workbook gridB))
      (Some first)
    = Status200 r
    ∧ HistoricalServer.cross_check
        (HistoricalServer.readFileContent (HistoricalServer.Workbook gridA))
        (HistoricalServer.readFileContent (HistoricalServer.Workbook gridB))
      = HistoricalServer.Status200 r'
    ∧ matched r = HistoricalServer.matched r'
    ∧ missing r = HistoricalServer.missing r'
    ∧ foundCount r = HistoricalServer.foundCount r'
    ∧ missingCount r = HistoricalServer.missingCount r'
    ∧ missingContents r = HistoricalServer.missingContents r'.
Proof.
  intros HcleanA HcleanB Hmember Htext gridA gridB.
  apply Forall_app in Htext as [HtextA HtextB].
  set (hsA := first :: namesA) in *.
  set (rowsA := (λ row, forEach_header hsA 0 row empty_object) <$> restA).
  set (rowsB := (λ row, forEach_header namesB 0 row empty_object) <$> restB).
  set (pA := readFileContent (Workbook gridA)).
  set (pB := readFileContent (Workbook gridB)).
  set (hA := HistoricalServer.readFileContent (HistoricalServer.Workbook gridA)).
  set (hB := HistoricalServer.readFileContent (HistoricalServer.Workbook gridB)).
  assert (headers pA = hsA) as EhsA by apply (clean_names_headers hsA HcleanA).
  assert (data pA = rowsA) as EA.
  { change (data pA)
      with ((λ row, forEach_header (headers pA) 0 row empty_object) <$> restA).
    by rewrite EhsA. }
  assert (data pB = rowsB) as EB.
  { change (data pB)
      with ((λ row, forEach_header (headers pB) 0 row empty_object) <$> restB).
    by rewrite (clean_names_headers namesB HcleanB : headers pB = namesB). }
  assert (HistoricalServer.data hA = rowsA) as EhA.
  { apply list_fmap_ext. intros _ row _. apply historical_forEach_header_text. }
  assert (HistoricalServer.data hB = rowsB) as EhB.
  { apply list_fmap_ext. intros _ row _. apply historical_forEach_header_text. }
  assert (first ≠ "") as Hfirst by (by apply Forall_cons in HcleanA as [[? _] _]).
  assert (actualComparisonColumn pA pB (Some first) = Some first) as Hkey.
  { unfold actualComparisonColumn.
    change (type pA) with structured. change (type pB) with structured.
    rewrite bool_decide_eq_true_2; [done|]. rewrite EhsA. apply list_elem_of_here. }
  assert (HistoricalServer.falsy (HistoricalServer.comparisonKey hA) = false) as Hfalsy.
  { change (HistoricalServer.comparisonKey hA) with (Scalar (VStr first) : cell number).
    simpl. by rewrite bool_decide_eq_false_2. }
  destruct (decide (rowsA = [])) as [HA|HA].
  { do 2 eexists.
    split; [apply (cross_check_empty_A pA pB (Some first) first Hkey); by rewrite EA|].
    split; [apply (historical_cross_check_empty_A hA hB); by rewrite EhA|]. done. }
  destruct (decide (rowsB = [])) as [HB|HB].
  { do 2 eexists.
    split; [apply (cross_check_empty_B pA pB (Some first) first Hkey);
             by rewrite ?EA, ?EB|].
    split; [apply (historical_cross_check_empty_B hA hB); by rewrite ?EhA, ?EhB|].
    done. }
  do 2 eexists.
  split; [apply (cross_check_compared pA pB (Some first) first Hkey);
           by rewrite ?EA, ?EB|].
  split; [apply (historical_cross_check_compared hA hB);
           by rewrite ?EhA, ?EhB|].
  unfold matched, missing, HistoricalServer.matched, HistoricalServer.missing.
  cbv beta iota zeta delta [matchedCsv missingCsv foundCount missingCount
    missingContents HistoricalServer.matchedCsv HistoricalServer.missingCsv
    HistoricalServer.foundCount HistoricalServer.missingCount
    HistoricalServer.missingContents].
  change (type pA) with structured. change (type pB) with structured.
  change (HistoricalServer.type hA) with structured.
  change (HistoricalServer.type hB) with structured.
  change (HistoricalServer.property_key (HistoricalServer.comparisonKey hA))
    with first.
  rewrite EA, EB, EhA, EhB.
  pose proof (loops_agree_on_text structured structured first rowsA rowsB) as Hloops.
  rewrite historical_compare_loop_filter, compare_loop_filter in Hloops.
  assert (∀ (rows : list (list (cell number))) (names : list string) row,
            Forall (Forall text_cell) rows →
            row ∈ (λ g, forEach_header names 0 g empty_object) <$> rows →
            has_content (value1 structured first row) = true →
            ∃ s, value1 structured first row = VStr s) as Htextual.
  { intros rows names row Hrows (g & -> & Hg)%list_elem_of_fmap. simpl.
    unfold get.
    destruct (own (forEach_header names 0 g empty_object) !! first) as [v|] eqn:Hv.
    2:{ by rewrite (bool_decide_eq_false_2 (first ∈ Object_prototype_members)),
          andb_false_r. }
    intros Hc.
    destruct (forEach_header_textual names 0 g empty_object) with (k := first) (v := v)
      as [s ->]; [| |done|done|by exists s].
    - rewrite Forall_forall in Hrows. by apply Hrows.
    - intros k v'. simpl. by rewrite lookup_empty. }
  specialize (Hloops (λ row, Htextual restA hsA row HtextA)
                     (λ row, Htextual restB namesB row HtextB)).
  pose proof (f_equal fst Hloops) as E1. pose proof (f_equal snd Hloops) as E2.
  cbn [fst snd] in E1, E2. by rewrite E1, E2.
Qed.

End historical_server_claims.

(** * The page and the answer *)

Section page_claims.
Context {number : Type} `{!JsNumber number}.
Implicit Types (A B : fileContent number) (selectedColumn : option string).

(** X20.  For every 200 answer the page says "All items from File A were
    found in File B." exactly when the answer has no missing row, and
    otherwise shows the sample; each download section is shown exactly when
    its count is not zero.  So with File B empty and File A not, the page
    says all items were found while reporting zero found; with rows on both
    sides it says so exactly when every row of File A was found. *)
Theorem page_says_all_found A B selectedColumn (r : response number (type A)) :
  cross_check A B selectedColumn = Status200 r →
  (missingContentsDisplay r = AllFound ↔ missing r = [])
  ∧ (missing r ≠ [] → missingContentsDisplay r = MissingItems (take 10 (missing r)))
  ∧ (downloadMatchedShown r = true ↔ foundCount r ≠ 0)
  ∧ (downloadMissingShown r = true ↔ missingCount r ≠ 0)
  ∧ (data A ≠ [] → data B = [] →
     missingContentsDisplay r = AllFound ∧ foundCount r = 0)
  ∧ (data A ≠ [] → data B ≠ [] →
     (missingContentsDisplay r = AllFound ↔ foundCount r = totalFile1Rows r)).
Proof.
  intros Hr.
  destruct (actualComparisonColumn A B selectedColumn) as [column|] eqn:Hkey.
  2:{ by rewrite cross_check_unknown_key in Hr. }
  destruct (decide (data A = [])) as [HA|HA].
  { rewrite (cross_check_empty_A _ _ _ column) in Hr by done.
    injection Hr as <-. by split_and!. }
  destruct (decide (data B = [])) as [HB|HB].
  { rewrite (cross_check_empty_B _ _ _ column) in Hr by done.
    injection Hr as <-. by split_and!. }
  rewrite (cross_check_compared _ _ _ column) in Hr by done.
  injection Hr as <-.
  unfold missingContentsDisplay, downloadMatchedShown, downloadMissingShown,
    missing; simpl.
  set (keep := in_file2 _ _ _).
  set (found := filter (λ i, keep i = true) (data A)).
  set (miss := filter (λ i, keep i ≠ true) (data A)).
  assert (length found + length miss = length (data A)) as Hsum.
  { rewrite <-length_app. apply Permutation_length, filter_app_complement. }
  rewrite !default_saved.
  assert (∀ X (l : list X), is_Some (saved l) ↔ length l ≠ 0) as Hsaved.
  { intros X l. unfold saved. case_bool_decide as Hl.
    - split; [intros _; lia|by eexists].
    - split; [by intros [? ?]|intros; lia]. }
  rewrite !bool_decide_eq_true, !Hsaved.
  destruct miss as [|m miss'] eqn:Hmiss; simpl in *.
  - split_and!; try done. intros _ _. split; [intros _; lia|done].
  - unfold saved; simpl. split_and!; try done.
    intros _ _. split; [done|intros; lia].
Qed.

End page_claims.

(** * The further properties on the sample uploads *)

Section more_samples.
Import Sample.

Lemma readFileContent_rows_shape_witness :
  length (data (readFileContent sheetA)) = 2
  ∧ Forall (λ row : object Z,
              dom (own row) = list_to_set ["id"; "name"] ∧ inherits row = true)
           (data (readFileContent sheetA)).
Proof.
  apply (readFileContent_rows_shape [str "id"; str "name"]
           [[str "1"; str "x"]; [str "2"; str "y"]]).
  apply (bool_decide_unpack ("__proto__" ∉ ["id"; "name"])). reflexivity.
Defined.

Lemma readFileContent_cell_witness :
  ∃ row : object Z,
    data (readFileContent sheetTwiceId) !! 0 = Some row
    ∧ get row "id" = VStr "2".
Proof.
  destruct (readFileContent_cell [str "id"; str "  "; str " id "]
              [[str "1"; str "2"; str "3"]] 0 1 [str "1"; str "2"; str "3"] "id")
    as (row & Hrow & Hget & _).
  - discriminate.
  - reflexivity.
  - by vm_compute.
  - intros [|[|j]] Hj; [lia|lia|]. by vm_compute.
  - exists row. split; [exact Hrow|]. rewrite Hget. reflexivity.
Defined.

Lemma formatDate_inj_witness :
  String.length
    (formatDate {| date_isNaN := false; getFullYear := 2024; getMonth := 0;
                   getDate := 9; Date_toString := "Tue Jan 09 2024" |})
  = String.length (pretty 2024%Z) + 6.
Proof.
  apply (formatDate_inj
           {| date_isNaN := false; getFullYear := 2024; getMonth := 0;
              getDate := 9; Date_toString := "Tue Jan 09 2024" |}
           {| date_isNaN := false; getFullYear := 2024; getMonth := 11;
              getDate := 31; Date_toString := "Tue Dec 31 2024" |});
    simpl; (reflexivity || lia).
Defined.

Lemma answer_fields_agree_witness :
  ∃ r, cross_check (readFileContent sheetA) (readFileContent sheetB) (Some "id")
       = Status200 r
    ∧ foundCount r = length (matched r)
    ∧ missingContents r = take 10 (missing r).
Proof.
  eexists. split; [by vm_compute|].
  lazymatch goal with
  | |- foundCount ?r = _ ∧ _ =>
      destruct (answer_fields_agree (readFileContent sheetA)
                  (readFileContent sheetB) (Some "id") r)
        as (Hfound & _ & _ & _ & Hsample & _); [by vm_compute|]
  end.
  split; [exact Hfound|exact Hsample].
Defined.

Lemma answer_depends_on_rows_of_B_witness :
  cross_check (readFileContent sheetA)
    (structuredContent [ obj {[ "id" := VStr "2" ]} ] ["id"] (Some "id")) (Some "id")
  = cross_check (readFileContent sheetA)
      (structuredContent [ obj {[ "id" := VStr "2" ]}; obj {[ "id" := VStr "2" ]} ] [] None)
      (Some "id").
Proof.
  apply (answer_depends_on_rows_of_B (readFileContent sheetA) structured
           [ obj {[ "id" := VStr "2" ]} ]
           [ obj {[ "id" := VStr "2" ]}; obj {[ "id" := VStr "2" ]} ]).
  intros x. rewrite !elem_of_cons. tauto.
Defined.

Lemma more_rows_in_B_more_matched_witness :
  ∃ r r',
    cross_check (readFileContent sheetA)
      (structuredContent [ obj {[ "id" := VStr "2" ]} ] ["id"] (Some "id")) (Some "id")
    = Status200 r
    ∧ cross_check (readFileContent sheetA)
        (structuredContent [ obj {[ "id" := VStr "2" ]}; obj {[ "id" := VStr "1" ]} ]
           ["id"] (Some "id")) (Some "id")
      = Status200 r'
    ∧ matched r `sublist_of` matched r'.
Proof.
  destruct (more_rows_in_B_more_matched (readFileContent sheetA) structured
              [ obj {[ "id" := VStr "2" ]} ]
              [ obj {[ "id" := VStr "2" ]}; obj {[ "id" := VStr "1" ]} ]
              ["id"] ["id"] (Some "id") (Some "id") (Some "id"))
    as (r & r' & Hr & Hr' & Hsub & _).
  - intros x Hx. apply elem_of_cons. by left; apply list_elem_of_singleton.
  - eexists. by vm_compute.
  - by exists r, r'.
Defined.

Lemma self_check_splits_by_content_witness :
  ∃ r, cross_check (readFileContent sheetBlankId) (readFileContent sheetBlankId)
         (Some "id")
       = Status200 r
    ∧ matched r = [ obj {[ "id" := VStr "2"; "name" := VStr "y" ]} ]
    ∧ missing r = [ obj {[ "id" := VStr ""; "name" := VStr "x" ]} ].
Proof.
  destruct (self_check_splits_by_content (readFileContent sheetBlankId)
              (Some "id") "id") as (r & Hr & Hm & Hn).
  - by vm_compute.
  - exists r. split; [exact Hr|]. rewrite Hm, Hn. split; by vm_compute.
Defined.

Lemma inherited_member_enters_lookup_set_witness :
  values2Set structured "toString"
    (data (readFileContent sheetNoId) : list (object Z))
  = ["function toString() { [native code] }"].
Proof.
  apply (inherited_member_enters_lookup_set [] ["toString"] (Some "toString")
           [str "name"] [str "2"] [[str "x"]] "toString").
  - apply (bool_decide_unpack ("toString" ∈ Object_prototype_members)). reflexivity.
  - apply list_elem_of_here.
  - apply (bool_decide_unpack ("toString" ∉ ["name"])). reflexivity.
  - apply (bool_decide_unpack ("__proto__" ∉ ["name"])). reflexivity.
Defined.

Lemma counts_of_grid_rows_witness :
  ∃ r, cross_check (readFileContent sheetA) (readFileContent sheetB) (Some "id")
       = Status200 r
    ∧ foundCount r + missingCount r = 2.
Proof.
  destruct (counts_of_grid_rows [str "id"; str "name"] [str "id"; str "name"]
              [str "1"; str "x"] [str "2"; str "z"] [[str "2"; str "y"]] []
              "id" 0 0) as (r & Hr & _ & Hsum).
  - discriminate.
  - by vm_compute.
  - intros [|[|i]] Hi; [lia|by vm_compute|by vm_compute].
  - by vm_compute.
  - intros [|[|i]] Hi; [lia|by vm_compute|by vm_compute].
  - by exists r.
Defined.

Lemma historical_reader_agrees_witness :
  HistoricalServer.data
    (HistoricalServer.readFileContent
       (HistoricalServer.Workbook
          [[str "id"; str "name"]; [str "1"; str "x"]; [str "2"; str "y"]]))
  = data (readFileContent sheetA).
Proof.
  apply (historical_reader_agrees ["id"; "name"]
           [[str "1"; str "x"]; [str "2"; str "y"]]).
  - repeat constructor; by vm_compute.
  - repeat first [apply Forall_nil_2 | apply Forall_cons_2 | right; by eexists].
Defined.

Lemma servers_agree_on_text_sheets_witness :
  ∃ r r',
    cross_check (readFileContent sheetA) (readFileContent sheetB) (Some "id")
    = Status200 r
    ∧ HistoricalServer.cross_check
        (HistoricalServer.readFileContent
           (HistoricalServer.Workbook
              [[str "id"; str "name"]; [str "1"; str "x"]; [str "2"; str "y"]]))
        (HistoricalServer.readFileContent
           (HistoricalServer.Workbook [[str "id"; str "name"]; [str "2"; str "z"]]))
      = HistoricalServer.Status200 r'
    ∧ matched r = HistoricalServer.matched r'
    ∧ missing r = HistoricalServer.missing r'.
Proof.
  destruct (servers_agree_on_text_sheets "id" ["name"] ["id"; "name"]
              [[str "1"; str "x"]; [str "2"; str "y"]] [[str "2"; str "z"]])
    as (r & r' & Hr & Hr' & Hm & Hn & _).
  - repeat constructor; by vm_compute.
  - repeat constructor; by vm_compute.
  - apply (bool_decide_unpack ("id" ∉ Object_prototype_members)). reflexivity.
  - repeat first [apply Forall_nil_2 | apply Forall_cons_2 | right; by eexists].
  - by exists r, r'.
Defined.

Lemma page_says_all_found_witness :
  ∃ r, cross_check (readFileContent sheetA) (readFileContent sheetHeaderOnly)
         (Some "id")
       = Status200 r
    ∧ missingContentsDisplay r = AllFound ∧ foundCount r = 0
    ∧ totalFile1Rows r = 2.
Proof.
  eexists. split; [by vm_compute|].
  lazymatch goal with
  | |- missingContentsDisplay ?r = _ ∧ _ =>
      destruct (page_says_all_found (readFileContent sheetA)
                  (readFileContent sheetHeaderOnly) (Some "id") r)
        as (_ & _ & _ & _ & Hshort & _); [by vm_compute|]
  end.
  destruct Hshort as [Hshown Hfound]; [by vm_compute|by vm_compute|].
  split_and!; [exact Hshown|exact Hfound|by vm_compute].
Defined.

End more_samples.
